(** * Dimensional ELT pipeline of the education data warehouse

    A shallow embedding of the dbt models

    - [dimensions/dim_students]   (SCD Type 2 student dimension),
    - [facts/fct_assessment_results] (incremental assessment fact),
    - [marts/equity/equity_metrics]  (equity mart),

    with the derived columns of [facts/fct_attendances], and the
    properties their specification states about them.

    Conventions of the embedding.
    - A table or CTE is a [list] of records, in the order the engine
      presents its rows.  SQL leaves the order of rows that tie in an
      [ORDER BY] open; the embedding resolves ties by keeping the order of
      presentation (the sort is stable), for every window function alike.
    - A nullable column is an [option]; [None] is SQL [NULL].
    - INT64 is [Z]; NUMERIC is an exact rational ([Q]); TIMESTAMP is the
      number of microseconds since 1970-01-01 00:00:00 UTC ([Z]); DATE is a
      civil date (year, month, day); STRING and BYTES are [string].
    - Engine builtins whose definition is not part of the repository
      ([MD5], [TO_HEX], [LOWER]) are parameters of the models; a concrete
      instance (RFC 1321 MD5, lower-case hexadecimal, ASCII lower-casing)
      is given in [Builtins] and used by the worked examples. *)

From Stdlib Require Import ZArith QArith Qround Qabs Bool List String Ascii Lia Lqa.
From Stdlib Require Import Sorting.Sorted Permutation RelationClasses.
Import ListNotations.
Local Open Scope Z_scope.

(* ------------------------------------------------------------------ *)
(** ** SQL values *)

Module Sql.

(** [COALESCE(x, d)] *)
Definition COALESCE {A} (x : option A) (d : A) : A :=
  match x with Some v => v | None => d end.

(** [x IS NULL] *)
Definition IS_NULL {A} (x : option A) : bool :=
  match x with Some _ => false | None => true end.

(** A [WHERE], [ON], [CASE WHEN] or [QUALIFY] condition holds when it
    evaluates to TRUE; NULL and FALSE both reject. *)
Definition is_true (c : option bool) : bool :=
  match c with Some true => true | _ => false end.

(** Three-valued connectives. *)
Definition AND3 (a b : option bool) : option bool :=
  match a, b with
  | Some false, _ | _, Some false => Some false
  | Some true, Some true => Some true
  | _, _ => None
  end.

Definition OR3 (a b : option bool) : option bool :=
  match a, b with
  | Some true, _ | _, Some true => Some true
  | Some false, Some false => Some false
  | _, _ => None
  end.

Definition NOT3 (a : option bool) : option bool :=
  match a with Some b => Some (negb b) | None => None end.

(** A binary operator or comparison is NULL as soon as an operand is. *)
Definition lift2 {A B C} (f : A -> B -> C) (x : option A) (y : option B)
  : option C :=
  match x, y with Some a, Some b => Some (f a b) | _, _ => None end.

Definition lift1 {A B} (f : A -> B) (x : option A) : option B :=
  match x with Some a => Some (f a) | None => None end.

(** [x IN (v1, ..., vn)] over strings (the listed values are literals). *)
Definition IN_str (x : option string) (vs : list string) : option bool :=
  lift1 (fun s => existsb (String.eqb s) vs) x.

(** [NULLIF(a, b)] and [SAFE_DIVIDE(a, b)] on NUMERIC. *)
Definition NULLIF (a : option Q) (b : Q) : option Q :=
  match a with
  | Some v => if Qeq_bool v b then None else Some v
  | None => None
  end.

Definition SAFE_DIVIDE (a b : option Q) : option Q :=
  match a, b with
  | Some x, Some y => if Qeq_bool y 0 then None else Some (x / y)%Q
  | _, _ => None
  end.

(** [ROUND(x, 2)]: two decimals, halfway cases away from zero. *)
Definition round_half_away (q : Q) : Z :=
  if Qle_bool 0 q then Qfloor (q + (1 # 2))%Q
  else - Qfloor ((- q) + (1 # 2))%Q.

Definition ROUND2 (q : Q) : Q := Qred (round_half_away (q * 100)%Q # 100).

(** [SUM] ignores NULLs and is NULL when no non-NULL value is summed. *)
Definition SUM_Q (xs : list (option Q)) : option Q :=
  fold_left (fun acc x =>
               match x with
               | None => acc
               | Some v => Some (match acc with Some a => (a + v)%Q | None => v end)
               end) xs None.

Definition SUM_Z (xs : list (option Z)) : option Z :=
  fold_left (fun acc x =>
               match x with
               | None => acc
               | Some v => Some (match acc with Some a => a + v | None => v end)
               end) xs None.

(** [AVG] is the mean of the non-NULL values, NULL when there is none. *)
Definition AVG_Q (xs : list (option Q)) : option Q :=
  match SUM_Q xs with
  | Some s =>
      Some (s / inject_Z (Z.of_nat (List.length (filter (fun x => negb (IS_NULL x)) xs))))%Q
  | None => None
  end.


(** [a LEFT JOIN b ON on]: every left row is kept; a left row without a
    partner is extended with NULLs ([None]). *)
Definition LEFT_JOIN {A B} (on : A -> B -> bool) (l : list A) (r : list B)
  : list (A * option B) :=
  flat_map (fun a =>
              match filter (on a) r with
              | [] => [(a, None)]
              | ms => map (fun b => (a, Some b)) ms
              end) l.

(** Stable sort for [ORDER BY]: [leb x y] says that [x] may stand before
    [y]; rows that tie keep their order of presentation. *)
Fixpoint insert_by {A} (leb : A -> A -> bool) (x : A) (l : list A) : list A :=
  match l with
  | [] => [x]
  | y :: tl => if leb x y then x :: y :: tl else y :: insert_by leb x tl
  end.

Definition ORDER_BY {A} (leb : A -> A -> bool) (l : list A) : list A :=
  fold_right (insert_by leb) [] l.

(** [ROW_NUMBER() OVER (PARTITION BY .. ORDER BY ..)] for every row of a
    table, the table kept in its order.  [same] tests for the same
    partition, [before x y] that [x] sorts strictly before [y].  The number
    of a row is one more than the count of partition members that precede
    it once the partition is sorted stably. *)
Fixpoint row_number_scan {A} (same before : A -> A -> bool)
  (seen rest : list A) : list (A * nat) :=
  match rest with
  | [] => []
  | x :: tl =>
      (x, S (List.length (filter (fun y => same y x && negb (before x y)) seen)
             + List.length (filter (fun y => same y x && before y x) tl)))
        :: row_number_scan same before (seen ++ [x]) tl
  end.

Definition ROW_NUMBER {A} (same before : A -> A -> bool) (rows : list A)
  : list (A * nat) :=
  row_number_scan same before [] rows.

(** The rows numbered 1, as [WHERE rn = 1] and [QUALIFY .. = 1] keep them. *)
Definition FIRST_ROWS {A} (same before : A -> A -> bool) (rows : list A)
  : list A :=
  map fst (filter (fun x => Nat.eqb (snd x) 1) (ROW_NUMBER same before rows)).

(** NULLs sort first in ascending order. *)
Definition asc_leb (x y : option Z) : bool :=
  match x, y with
  | None, _ => true
  | Some _, None => false
  | Some a, Some b => a <=? b
  end.

(** [ORDER BY c DESC]: [x] strictly before [y]; NULLs sort last. *)
Definition desc_before (x y : option Z) : bool :=
  match x, y with
  | Some a, Some b => b <? a
  | Some _, None => true
  | None, _ => false
  end.

Definition opt_Z_eqb (x y : option Z) : bool :=
  match x, y with
  | Some a, Some b => a =? b
  | None, None => true
  | _, _ => false
  end.

(** [a = b] in an [ON] clause: never true when a side is NULL. *)
Definition join_eq (x y : option Z) : bool :=
  match x, y with
  | Some a, Some b => a =? b
  | _, _ => false
  end.

End Sql.

(* ------------------------------------------------------------------ *)
(** ** Dates and timestamps *)

Module Calendar.

Record date := mk_date { year : Z; month : Z; day : Z }.

Definition timestamp := Z.

Definition is_leap (y : Z) : bool :=
  ((y mod 4 =? 0) && negb (y mod 100 =? 0)) || (y mod 400 =? 0).

Definition days_before_month (y m : Z) : Z :=
  nth (Z.to_nat (m - 1)) [0; 31; 59; 90; 120; 151; 181; 212; 243; 273; 304; 334] 0
  + (if (2 <? m) && is_leap y then 1 else 0).

(** [EXTRACT(DAYOFYEAR FROM d)] *)
Definition DAYOFYEAR (d : date) : Z := days_before_month (year d) (month d) + day d.

(** Days from 1970-01-01 to the first day of year [y]. *)
Definition days_before_year (y : Z) : Z :=
  let p := y - 1 in
  365 * (y - 1970) + (p / 4 - p / 100 + p / 400) - (1969 / 4 - 1969 / 100 + 1969 / 400).

Definition days_from_epoch (d : date) : Z :=
  days_before_year (year d) + DAYOFYEAR d - 1.

Definition one_second : Z := 1000000.

(** [TIMESTAMP('y-m-d hh:mm:ss')] in UTC. *)
Definition TIMESTAMP (d : date) (hh mm ss : Z) : timestamp :=
  (days_from_epoch d * 86400 + hh * 3600 + mm * 60 + ss) * one_second.

(** [DATE_DIFF(a, b, YEAR)] counts the year boundaries between the dates. *)
Definition DATE_DIFF_YEAR (a b : date) : Z := year a - year b.

Definition date_leb (a b : date) : bool :=
  (year a <? year b)
  || ((year a =? year b)
      && ((month a <? month b) || ((month a =? month b) && (day a <=? day b)))).

Definition date_eqb (a b : date) : bool :=
  (year a =? year b) && (month a =? month b) && (day a =? day b).

(** [DATE_TRUNC(d, MONTH | QUARTER | YEAR)] *)
Definition DATE_TRUNC_MONTH (d : date) : date := mk_date (year d) (month d) 1.
Definition DATE_TRUNC_QUARTER (d : date) : date :=
  mk_date (year d) (3 * ((month d - 1) / 3) + 1) 1.
Definition DATE_TRUNC_YEAR (d : date) : date := mk_date (year d) 1 1.

End Calendar.

(* ------------------------------------------------------------------ *)
(** ** Strings *)

Module Text.

Local Open Scope string_scope.

Definition digit_char (d : Z) : string :=
  String (ascii_of_N (48 + Z.to_N d)%N) EmptyString.

Fixpoint digits_fuel (fuel : nat) (n : Z) (acc : string) : string :=
  match fuel with
  | O => acc
  | S f =>
      if (n <? 10)%Z then digit_char n ++ acc
      else digits_fuel f (n / 10)%Z (digit_char (n mod 10)%Z ++ acc)
  end.

(** [CAST(n AS STRING)] for INT64. *)
Definition string_of_Z (n : Z) : string :=
  if (n <? 0)%Z then "-" ++ digits_fuel (S (Z.to_nat (Z.log2 (- n)))) (- n)%Z EmptyString
  else digits_fuel (S (Z.to_nat (Z.log2 n))) n EmptyString.

(** [CAST(d AS STRING)] for DATE: [YYYY-MM-DD]. *)
Definition string_of_date (d : Calendar.date) : string :=
  let pad w n :=
    let s := string_of_Z n in
    append (string_of_list_ascii (repeat "0"%char (w - String.length s))) s in
  pad 4%nat (Calendar.year d) ++ "-" ++ pad 2%nat (Calendar.month d)
    ++ "-" ++ pad 2%nat (Calendar.day d).

(** [SPLIT(s, ' ')]: the pieces between the delimiters, at least one. *)
Fixpoint SPLIT_space (s : string) : list string :=
  match s with
  | EmptyString => [EmptyString]
  | String c tl =>
      if Ascii.eqb c " "%char then EmptyString :: SPLIT_space tl
      else match SPLIT_space tl with
           | p :: ps => String c p :: ps
           | [] => [String c EmptyString]
           end
  end.

Fixpoint has_prefix (p s : string) : bool :=
  match p, s with
  | EmptyString, _ => true
  | String a p', String b s' => Ascii.eqb a b && has_prefix p' s'
  | String _ _, EmptyString => false
  end.

(** [s LIKE '%p%'] for a pattern [p] without wildcards. *)
Fixpoint contains (p s : string) : bool :=
  has_prefix p s
  || match s with
     | EmptyString => false
     | String _ tl => contains p tl
     end.

End Text.

(* ------------------------------------------------------------------ *)
(** ** Engine builtins: a concrete instance

    [MD5] (RFC 1321) on byte strings, [TO_HEX] (lower-case hexadecimal) and
    [LOWER] restricted to ASCII letters.  The models below take the three
    functions as parameters; this instance runs the worked examples. *)

Module Builtins.

Definition wrap32 (x : Z) : Z := x mod 2 ^ 32.

Definition rotl32 (x : Z) (c : Z) : Z :=
  wrap32 (Z.lor (Z.shiftl x c) (Z.shiftr x (32 - c))).

Definition not32 (x : Z) : Z := 2 ^ 32 - 1 - x.

Definition shift_table : list Z :=
  [7; 12; 17; 22; 7; 12; 17; 22; 7; 12; 17; 22; 7; 12; 17; 22;
   5; 9; 14; 20; 5; 9; 14; 20; 5; 9; 14; 20; 5; 9; 14; 20;
   4; 11; 16; 23; 4; 11; 16; 23; 4; 11; 16; 23; 4; 11; 16; 23;
   6; 10; 15; 21; 6; 10; 15; 21; 6; 10; 15; 21; 6; 10; 15; 21].

(** [floor (2^32 * abs (sin (i + 1)))] for [i = 0 .. 63]. *)
Definition sine_table : list Z :=
  [3614090360; 3905402710; 606105819; 3250441966;
   4118548399; 1200080426; 2821735955; 4249261313;
   1770035416; 2336552879; 4294925233; 2304563134;
   1804603682; 4254626195; 2792965006; 1236535329;
   4129170786; 3225465664; 643717713; 3921069994;
   3593408605; 38016083; 3634488961; 3889429448;
   568446438; 3275163606; 4107603335; 1163531501;
   2850285829; 4243563512; 1735328473; 2368359562;
   4294588738; 2272392833; 1839030562; 4259657740;
   2763975236; 1272893353; 4139469664; 3200236656;
   681279174; 3936430074; 3572445317; 76029189;
   3654602809; 3873151461; 530742520; 3299628645;
   4096336452; 1126891415; 2878612391; 4237533241;
   1700485571; 2399980690; 4293915773; 2240044497;
   1873313359; 4264355552; 2734768916; 1309151649;
   4149444226; 3174756917; 718787259; 3951481745].

Definition bytes_of_string (s : string) : list Z :=
  map (fun c => Z.of_N (N_of_ascii c)) (list_ascii_of_string s).

Definition string_of_bytes (bs : list Z) : string :=
  string_of_list_ascii (map (fun b => ascii_of_N (Z.to_N b)) bs).

(** [n] as [k] little-endian bytes. *)
Fixpoint le_bytes (k : nat) (n : Z) : list Z :=
  match k with
  | O => []
  | S k' => n mod 256 :: le_bytes k' (n / 256)
  end.

Fixpoint le_word (bs : list Z) : Z :=
  match bs with
  | [] => 0
  | b :: tl => b + 256 * le_word tl
  end.

Definition md5_pad (msg : list Z) : list Z :=
  let len := Z.of_nat (List.length msg) in
  let zeros := (55 - len) mod 64 in
  msg ++ [128] ++ repeat 0 (Z.to_nat zeros) ++ le_bytes 8 ((8 * len) mod 2 ^ 64).

Fixpoint chunks (n : nat) (fuel : nat) (l : list Z) : list (list Z) :=
  match fuel, l with
  | O, _ | _, [] => []
  | S f, _ => firstn n l :: chunks n f (skipn n l)
  end.

Definition md5_state := (Z * Z * Z * Z)%type.

Definition md5_step (m : list Z) (st : md5_state) (i : nat) : md5_state :=
  let '(a, b, c, d) := st in
  let zi := Z.of_nat i in
  let '(f, g) :=
    if zi <? 16 then (Z.lor (Z.land b c) (Z.land (not32 b) d), zi)
    else if zi <? 32 then
      (Z.lor (Z.land d b) (Z.land (not32 d) c), (5 * zi + 1) mod 16)
    else if zi <? 48 then (Z.lxor b (Z.lxor c d), (3 * zi + 5) mod 16)
    else (Z.lxor c (Z.lor b (not32 d)), (7 * zi) mod 16) in
  let f' := wrap32 (f + a + nth i sine_table 0 + nth (Z.to_nat g) m 0) in
  (d, wrap32 (b + rotl32 f' (nth i shift_table 0)), b, c).

Definition md5_chunk (st : md5_state) (chunk : list Z) : md5_state :=
  let m := map le_word (chunks 4 16 chunk) in
  let '(a0, b0, c0, d0) := st in
  let '(a, b, c, d) := fold_left (md5_step m) (seq 0 64) st in
  (wrap32 (a0 + a), wrap32 (b0 + b), wrap32 (c0 + c), wrap32 (d0 + d)).

(** [MD5(s)]: the 16 bytes of the digest. *)
Definition MD5 (s : string) : string :=
  let padded := md5_pad (bytes_of_string s) in
  let '(a, b, c, d) :=
    fold_left md5_chunk (chunks 64 (List.length padded) padded)
      (1732584193, 4023233417, 2562383102, 271733878) in
  string_of_bytes (le_bytes 4 a ++ le_bytes 4 b ++ le_bytes 4 c ++ le_bytes 4 d).

Definition hex_digit (n : Z) : ascii :=
  if n <? 10 then ascii_of_N (48 + Z.to_N n) else ascii_of_N (87 + Z.to_N n).

(** [TO_HEX(b)]: two lower-case hexadecimal digits per byte. *)
Definition TO_HEX (b : string) : string :=
  string_of_list_ascii
    (flat_map (fun x => [hex_digit (x / 16); hex_digit (x mod 16)])
       (bytes_of_string b)).

(** [LOWER(s)] on ASCII letters; other bytes are left as they are. *)
Definition lower_ascii (c : ascii) : ascii :=
  let n := N_of_ascii c in
  if ((65 <=? n) && (n <=? 90))%N then ascii_of_N (n + 32) else c.

Definition LOWER (s : string) : string :=
  string_of_list_ascii (map lower_ascii (list_ascii_of_string s)).

End Builtins.

(* ------------------------------------------------------------------ *)
(** ** What differs from one run of a model to the next *)

Record run := mk_run {
  GENERATE_UUID : nat -> string;       (* the UUID drawn for the n-th row *)
  CURRENT_DATE : Calendar.date;
  CURRENT_TIMESTAMP : Calendar.timestamp;
  this : string                         (* the relation name dbt renders *)
}.

(* ------------------------------------------------------------------ *)
(** ** dimensions/dim_students *)

Module DimStudents.

Import Sql Calendar.
Local Open Scope string_scope.

(** A row of [source('raw', 'students')]. *)
Module Raw.
Record row := mk {
  student_id : option Z;
  full_name : option string;
  gender : option string;
  date_of_birth : option date;
  division : option string;
  district : option string;
  upazila : option string;
  socioeconomic_status : option string;
  disability_status : option string;
  guardian_contact : option string;
  created_at : timestamp   (* filled by the column default of the feed *)
}.
End Raw.

(** A row of the CTE [student_updates]: the source columns and the four
    computed ones. *)
Module Updates.
Record row := mk {
  src : Raw.row;
  row_hash : string;
  previous_row_hash : option string;
  next_created_at : option timestamp;
  rn : nat
}.
End Updates.

(** A row of the CTE [changed_records]. *)
Module Changed.
Record row := mk {
  src : Raw.row;
  next_created_at : option timestamp;
  age : option Z;
  age_group : string;
  first_name : option string;
  last_name : option string;
  standardized_gender : string;
  has_disability : bool;
  area_type : string;
  is_current : bool;
  effective_from : timestamp;
  effective_to : timestamp
}.
End Changed.

(** A row of the table [dim_students]. *)
Module Dim.
Record row := mk {
  student_key : string;
  student_id : option Z;
  full_name : option string;
  first_name : option string;
  last_name : option string;
  gender : string;
  date_of_birth : option date;
  age : option Z;
  age_group : string;
  division : option string;
  district : option string;
  upazila : option string;
  area_type : string;
  socioeconomic_status : option string;
  has_disability : bool;
  disability_status : option string;
  guardian_contact : option string;
  is_current : bool;
  effective_from : timestamp;
  effective_to : timestamp;
  dwh_created_at : timestamp;
  dwh_updated_at : timestamp;
  record_source : string
}.
End Dim.

(** [TIMESTAMP('9999-12-31 23:59:59')] *)
Definition end_of_time : timestamp := TIMESTAMP (mk_date 9999 12 31) 23 59 59.

Section Model.

Variable MD5 : string -> string.
Variable TO_HEX : string -> string.
Variable LOWER : string -> string.

(** The change-detection hash of a source row. *)
Definition hash_of (r : Raw.row) : string :=
  TO_HEX (MD5 (concat EmptyString
    [ COALESCE (lift1 Text.string_of_Z (Raw.student_id r)) EmptyString;
      COALESCE (Raw.full_name r) EmptyString;
      COALESCE (Raw.gender r) EmptyString;
      COALESCE (lift1 Text.string_of_date (Raw.date_of_birth r)) EmptyString;
      COALESCE (Raw.division r) EmptyString;
      COALESCE (Raw.district r) EmptyString;
      COALESCE (Raw.upazila r) EmptyString;
      COALESCE (Raw.socioeconomic_status r) EmptyString;
      COALESCE (Raw.disability_status r) EmptyString;
      COALESCE (Raw.guardian_contact r) EmptyString ])).

(** [PARTITION BY student_id] *)
Definition same_student (a b : Raw.row) : bool :=
  opt_Z_eqb (Raw.student_id a) (Raw.student_id b).

(** [PARTITION BY student_id, created_at] *)
Definition same_version (a b : Raw.row) : bool :=
  same_student a b && (Raw.created_at a =? Raw.created_at b)%Z.

(** The order in which the windows [PARTITION BY student_id ORDER BY
    created_at] are laid out: partition after partition, each by
    [created_at]. *)
Definition window_leb (a b : Raw.row) : bool :=
  if same_student a b then (Raw.created_at a <=? Raw.created_at b)%Z
  else asc_leb (Raw.student_id a) (Raw.student_id b).

(** The window functions of [student_updates], over the rows in window
    order.  [LAG] is the hash of the row just before in the same partition,
    [LEAD] the [created_at] of the row just after; [ROW_NUMBER() OVER
    (PARTITION BY student_id, created_at ORDER BY created_at)] counts
    along the run of rows with the same student and timestamp, which all
    tie in its ordering.  [prev] is the row just before, [prev_rn] its
    number. *)
Fixpoint window_scan (prev : option Raw.row) (prev_rn : nat)
  (rows : list Raw.row) : list Updates.row :=
  match rows with
  | [] => []
  | r :: rest =>
      let n :=
        match prev with
        | Some p => if same_version p r then S prev_rn else 1%nat
        | None => 1%nat
        end in
      Updates.mk r (hash_of r)
        (match prev with
         | Some p => if same_student p r then Some (hash_of p) else None
         | None => None
         end)
        (match rest with
         | nx :: _ => if same_student r nx then Some (Raw.created_at nx) else None
         | [] => None
         end)
        n
      :: window_scan (Some r) n rest
  end.

(** CTE [student_updates] *)
Definition student_updates (raw : list Raw.row) : list Updates.row :=
  window_scan None 0
    (ORDER_BY window_leb
       (filter (fun r => negb (IS_NULL (Raw.student_id r))) raw)).

(** [WHERE (row_hash != previous_row_hash OR previous_row_hash IS NULL)
     AND rn = 1] *)
Definition is_changed (u : Updates.row) : bool :=
  is_true (OR3 (lift2 (fun a b => negb (String.eqb a b))
                  (Some (Updates.row_hash u)) (Updates.previous_row_hash u))
               (Some (IS_NULL (Updates.previous_row_hash u))))
  && Nat.eqb (Updates.rn u) 1.

Definition age_group_of (years : option Z) : string :=
  match years with
  | Some n =>
      if (n <? 5)%Z then "0-4"
      else if ((5 <=? n) && (n <=? 9))%Z then "5-9"
      else if ((10 <=? n) && (n <=? 14))%Z then "10-14"
      else if ((15 <=? n) && (n <=? 19))%Z then "15-19"
      else if ((20 <=? n) && (n <=? 24))%Z then "20-24"
      else "25+"
  | None => "25+"
  end.

Definition standardize_gender (g : option string) : string :=
  let l := lift1 LOWER g in
  if is_true (IN_str l ["m"; "male"; "mÃ¢le"; "homme"]) then "Male"
  else if is_true (IN_str l ["f"; "female"; "femme"]) then "Female"
  else if is_true (IN_str l ["o"; "other"; "autre"]) then "Other"
  else "Unknown".

Definition disability_flag (d : option string) : bool :=
  if is_true (OR3 (Some (IS_NULL d))
                  (IN_str (lift1 LOWER d) ["none"; "no"; "na"; EmptyString]))
  then false else true.

Definition area_type_of (u : option string) : string :=
  let l := lift1 LOWER u in
  let like p := lift1 (Text.contains p) l in
  if is_true (OR3 (OR3 (OR3 (like "sadar") (like "town")) (like "city"))
                  (like "metro"))
  then "Urban" else "Rural".

Definition changed_record (today : date) (u : Updates.row) : Changed.row :=
  let r := Updates.src u in
  let years := lift1 (DATE_DIFF_YEAR today) (Raw.date_of_birth r) in
  let pieces := lift1 Text.SPLIT_space (Raw.full_name r) in
  Changed.mk r (Updates.next_created_at u)
    (lift2 Z.sub years
       (Some (if is_true (lift1 (fun b => (DAYOFYEAR today <? DAYOFYEAR b)%Z)
                            (Raw.date_of_birth r))
              then 1 else 0)%Z))
    (age_group_of years)
    (lift1 (fun ps => hd EmptyString ps) pieces)
    (lift1 (fun ps => hd EmptyString (rev ps)) pieces)
    (standardize_gender (Raw.gender r))
    (disability_flag (Raw.disability_status r))
    (area_type_of (Raw.upazila r))
    (IS_NULL (Updates.next_created_at u))
    (Raw.created_at r)
    (COALESCE (lift1 (fun t => t - one_second)%Z (Updates.next_created_at u))
       end_of_time).

(** CTE [changed_records] *)
Definition changed_records (today : date) (us : list Updates.row)
  : list Changed.row :=
  map (changed_record today) (filter is_changed us).

(** The final [SELECT] list, for the [n]-th row. *)
Definition select_row (env : run) (n : nat) (c : Changed.row) : Dim.row :=
  let r := Changed.src c in
  Dim.mk (GENERATE_UUID env n)
    (Raw.student_id r) (Raw.full_name r)
    (Changed.first_name c) (Changed.last_name c)
    (Changed.standardized_gender c)
    (Raw.date_of_birth r) (Changed.age c) (Changed.age_group c)
    (Raw.division r) (Raw.district r) (Raw.upazila r)
    (Changed.area_type c)
    (Raw.socioeconomic_status r)
    (Changed.has_disability c)
    (Raw.disability_status r) (Raw.guardian_contact r)
    (Changed.is_current c) (Changed.effective_from c) (Changed.effective_to c)
    (CURRENT_TIMESTAMP env) (CURRENT_TIMESTAMP env)
    (this env).

Fixpoint select_rows (env : run) (n : nat) (cs : list Changed.row)
  : list Dim.row :=
  match cs with
  | [] => []
  | c :: tl => select_row env n c :: select_rows env (S n) tl
  end.

(** [ORDER BY student_id, effective_from] *)
Definition final_leb (a b : Dim.row) : bool :=
  if opt_Z_eqb (Dim.student_id a) (Dim.student_id b)
  then (Dim.effective_from a <=? Dim.effective_from b)%Z
  else asc_leb (Dim.student_id a) (Dim.student_id b).

(** The model: the table [dim_students] built from the raw feed. *)
Definition dim_students (env : run) (raw : list Raw.row) : list Dim.row :=
  ORDER_BY final_leb
    (select_rows env 0
       (changed_records (CURRENT_DATE env) (student_updates raw))).

End Model.

(** The version a source row stands for: its student and its timestamp. *)
Definition version (r : Raw.row) : option Z * timestamp :=
  (Raw.student_id r, Raw.created_at r).

(** What identifies a row of the dimension. *)
Definition natural_key (d : Dim.row) : option Z * timestamp :=
  (Dim.student_id d, Dim.effective_from d).

(** Rows laid out window after window, each by [created_at]. *)
Definition in_window_order : list Raw.row -> Prop :=
  StronglySorted (fun a b => window_leb a b = true).



End DimStudents.

(* ------------------------------------------------------------------ *)
(** ** facts/fct_assessment_results *)

Module FctAssessmentResults.

Import Sql Calendar.
Local Open Scope string_scope.

(** A row of [ref('stg_assessment_results')]. *)
Module Stg.
Record row := mk {
  assessment_result_id : option Z;
  student_id : option Z;
  teacher_id : option Z;
  school_id : option Z;
  assessment_id : option Z;
  assessment_date : option date;
  academic_year : option string;
  term : option string;
  subject_id : option Z;
  grade : option string;
  section : option string;
  marks_obtained : option Q;
  max_marks : option Q;
  percentage : option Q;
  grade_letter : option string;
  is_passed : option bool;
  remarks : option string;
  recorded_at : option timestamp;
  recorded_by : option string;
  assessment_type : option string;
  assessment_category : option string;
  is_makeup_exam : option bool
}.
End Stg.

(** The columns of [ref('dim_teachers')], [ref('dim_schools')] and
    [ref('dim_subjects')] the model reads. *)
Module Teacher.
Record row := mk {
  teacher_id : option Z;
  full_name : option string;
  subject_specialization : option string;
  years_of_experience : option Z;
  is_current : bool
}.
End Teacher.

Module School.
Record row := mk {
  school_id : option Z;
  school_name : option string;
  school_type : option string;
  education_level : option string;
  is_rural : option bool;
  is_current : bool
}.
End School.

Module Subject.
Record row := mk {
  subject_id : option Z;
  subject_name : option string
}.
End Subject.

(** A row of the CTE [student_info]. *)
Module StudentInfo.
Record row := mk {
  student_id : option Z;
  student_name : option string;
  student_gender : string;
  student_age_group : string;
  socioeconomic_status : option string;
  has_disability : bool;
  is_current : bool
}.
End StudentInfo.

(** A row of the table [fct_assessment_results]. *)
Module Fact.
Record row := mk {
  assessment_result_key : string;
  assessment_result_id : option Z;
  student_id : option Z;
  student_name : option string;
  student_gender : option string;
  student_age_group : option string;
  socioeconomic_status : option string;
  has_disability : option bool;
  teacher_id : option Z;
  teacher_name : option string;
  subject_specialization : option string;
  years_of_experience : option Z;
  school_id : option Z;
  school_name : option string;
  school_type : option string;
  education_level : option string;
  is_rural : option bool;
  assessment_id : option Z;
  assessment_date : option date;
  assessment_month : option date;
  assessment_quarter : option date;
  assessment_year : option date;
  recorded_at : option timestamp;
  academic_year : option string;
  term : option string;
  subject_id : option Z;
  subject_name : option string;
  grade : option string;
  section : option string;
  assessment_type : option string;
  assessment_category : option string;
  is_makeup_exam : option bool;
  marks_obtained : option Q;
  max_marks : option Q;
  percentage : option Q;
  grade_letter : option string;
  is_passed : option bool;
  is_passed_indicator : Z;
  is_good_performance : Z;
  remarks : option string;
  standardized_grade : string;
  calculated_percentage : option Q;
  performance_category : string;
  normalized_score : option Q;
  recorded_by : option string;
  dwh_created_at : timestamp;
  dwh_updated_at : timestamp;
  record_source : string
}.
End Fact.

(** How dbt runs the model: [is_incremental()] is false on a first or full
    load, true on a later one, which also reads the table built so far. *)
Inductive load :=
| FullRefresh
| Incremental (target : list Fact.row).

(** The four tables the model reads besides the dimension of students. *)
Record sources := mk_sources {
  stg_assessment_results : list Stg.row;
  dim_students : list DimStudents.Dim.row;
  dim_teachers : list Teacher.row;
  dim_schools : list School.row;
  dim_subjects : list Subject.row
}.

(** [percentage >= t] as a [CASE WHEN] condition. *)
Definition at_least (p : option Q) (t : Q) : bool :=
  is_true (lift1 (Qle_bool t) p).

Definition standardized_grade_of (p : option Q) : string :=
  if at_least p 80 then "A+"
  else if at_least p 70 then "A"
  else if at_least p 60 then "A-"
  else if at_least p 50 then "B"
  else if at_least p 40 then "C"
  else if at_least p 33 then "D"
  else "F".

Definition performance_category_of (p : option Q) : string :=
  if at_least p 80 then "Excellent (80-100%)"
  else if at_least p 70 then "Very Good (70-79%)"
  else if at_least p 60 then "Good (60-69%)"
  else if at_least p 50 then "Satisfactory (50-59%)"
  else if at_least p 40 then "Adequate (40-49%)"
  else if at_least p 33 then "Marginal (33-39%)"
  else "Fail (Below 33%)".

(** [SAFE_DIVIDE(marks_obtained, NULLIF(max_marks, 0)) * 100] *)
Definition calculated_percentage_of (marks max : option Q) : option Q :=
  lift1 (fun q => q * 100)%Q (SAFE_DIVIDE marks (NULLIF max 0)).

(** [SAFE_DIVIDE(marks_obtained, NULLIF(max_marks, 1))] *)
Definition normalized_score_of (marks max : option Q) : option Q :=
  SAFE_DIVIDE marks (NULLIF max 1).

Definition is_passed_indicator_of (p : option Q) : Z :=
  if at_least p 33 then 1 else 0.

Definition is_good_performance_of (p : option Q) : Z :=
  if at_least p 60 then 1 else 0.

(** [x IN (subquery)] on INT64, three-valued. *)
Definition IN_Z (x : option Z) (l : list (option Z)) : option bool :=
  match l, x with
  | [], _ => Some false
  | _, None => None
  | _, Some v =>
      if existsb (fun y => join_eq (Some v) y) l then Some true
      else if existsb IS_NULL l then None
      else Some false
  end.

Section Model.

(** The macro [dbt_utils.generate_surrogate_key] applied to the columns
    [assessment_result_id] and [recorded_at]; the package is not part of
    the repository. *)
Variable generate_surrogate_key : option Z -> option timestamp -> string.

Variable env : run.
Variable mode : load.
Variable db : sources.

(** The lower bound of the incremental window: the first instant of the
    year before the current one. *)
Definition window_start : timestamp :=
  TIMESTAMP (mk_date (year (DATE_TRUNC_YEAR (CURRENT_DATE env)) - 1) 1 1) 0 0 0.

(** [WHERE] of the CTE [assessment_results] *)
Definition staged (r : Stg.row) : bool :=
  negb (IS_NULL (Stg.assessment_date r))
  && match mode with
     | FullRefresh => true
     | Incremental _ =>
         is_true (lift1 (fun t => (window_start <=? t)%Z) (Stg.recorded_at r))
     end.

(** [PARTITION BY assessment_result_id ORDER BY recorded_at DESC] *)
Definition same_result (a b : Stg.row) : bool :=
  opt_Z_eqb (Stg.assessment_result_id a) (Stg.assessment_result_id b).

Definition newer (a b : Stg.row) : bool :=
  desc_before (Stg.recorded_at a) (Stg.recorded_at b).

(** CTE [assessment_results]: the staged rows, each with its [rn]. *)
Definition assessment_results : list (Stg.row * nat) :=
  ROW_NUMBER same_result newer (filter staged (stg_assessment_results db)).

(** CTE [student_info] *)
Definition student_info : list StudentInfo.row :=
  map (fun d => StudentInfo.mk (DimStudents.Dim.student_id d)
                  (DimStudents.Dim.full_name d) (DimStudents.Dim.gender d)
                  (DimStudents.Dim.age_group d)
                  (DimStudents.Dim.socioeconomic_status d)
                  (DimStudents.Dim.has_disability d)
                  (DimStudents.Dim.is_current d))
    (filter DimStudents.Dim.is_current (dim_students db)).

(** CTE [teacher_info] *)
Definition teacher_info : list Teacher.row :=
  filter Teacher.is_current (dim_teachers db).

(** CTE [school_info] *)
Definition school_info : list School.row :=
  filter School.is_current (dim_schools db).

(** The [FROM] clause of [enriched_results]. *)
Definition joined :=
  LEFT_JOIN (fun x sub => join_eq (Stg.subject_id (fst (fst (fst (fst x)))))
                            (Subject.subject_id sub))
    (LEFT_JOIN (fun x sch => join_eq (Stg.school_id (fst (fst (fst x))))
                               (School.school_id sch))
       (LEFT_JOIN (fun x ti => join_eq (Stg.teacher_id (fst (fst x)))
                                 (Teacher.teacher_id ti))
          (LEFT_JOIN (fun ar si => join_eq (Stg.student_id (fst ar))
                                     (StudentInfo.student_id si))
             assessment_results student_info)
          teacher_info)
       school_info)
    (dim_subjects db).

(** The [SELECT] list of [enriched_results]. *)
Definition enrich (ar : Stg.row) (si : option StudentInfo.row)
  (ti : option Teacher.row) (sch : option School.row)
  (sub : option Subject.row) : Fact.row :=
  let col {A B} (f : A -> option B) (x : option A) : option B :=
    match x with Some v => f v | None => None end in
  {| Fact.assessment_result_key :=
       generate_surrogate_key (Stg.assessment_result_id ar) (Stg.recorded_at ar);
     Fact.assessment_result_id := Stg.assessment_result_id ar;
     Fact.student_id := Stg.student_id ar;
     Fact.teacher_id := Stg.teacher_id ar;
     Fact.school_id := Stg.school_id ar;
     Fact.assessment_id := Stg.assessment_id ar;
     Fact.assessment_date := Stg.assessment_date ar;
     Fact.assessment_month := lift1 DATE_TRUNC_MONTH (Stg.assessment_date ar);
     Fact.assessment_quarter := lift1 DATE_TRUNC_QUARTER (Stg.assessment_date ar);
     Fact.assessment_year := lift1 DATE_TRUNC_YEAR (Stg.assessment_date ar);
     Fact.recorded_at := Stg.recorded_at ar;
     Fact.academic_year := Stg.academic_year ar;
     Fact.term := Stg.term ar;
     Fact.subject_id := Stg.subject_id ar;
     Fact.subject_name := col Subject.subject_name sub;
     Fact.grade := Stg.grade ar;
     Fact.section := Stg.section ar;
     Fact.assessment_type := Stg.assessment_type ar;
     Fact.assessment_category := Stg.assessment_category ar;
     Fact.is_makeup_exam := Stg.is_makeup_exam ar;
     Fact.student_name := col StudentInfo.student_name si;
     Fact.student_gender := lift1 StudentInfo.student_gender si;
     Fact.student_age_group := lift1 StudentInfo.student_age_group si;
     Fact.socioeconomic_status := col StudentInfo.socioeconomic_status si;
     Fact.has_disability := lift1 StudentInfo.has_disability si;
     Fact.teacher_name := col Teacher.full_name ti;
     Fact.subject_specialization := col Teacher.subject_specialization ti;
     Fact.years_of_experience := col Teacher.years_of_experience ti;
     Fact.school_name := col School.school_name sch;
     Fact.school_type := col School.school_type sch;
     Fact.education_level := col School.education_level sch;
     Fact.is_rural := col School.is_rural sch;
     Fact.marks_obtained := Stg.marks_obtained ar;
     Fact.max_marks := Stg.max_marks ar;
     Fact.percentage := Stg.percentage ar;
     Fact.grade_letter := Stg.grade_letter ar;
     Fact.is_passed := Stg.is_passed ar;
     Fact.remarks := Stg.remarks ar;
     Fact.standardized_grade := standardized_grade_of (Stg.percentage ar);
     Fact.calculated_percentage :=
       calculated_percentage_of (Stg.marks_obtained ar) (Stg.max_marks ar);
     Fact.performance_category := performance_category_of (Stg.percentage ar);
     Fact.is_passed_indicator := is_passed_indicator_of (Stg.percentage ar);
     Fact.is_good_performance := is_good_performance_of (Stg.percentage ar);
     Fact.normalized_score :=
       normalized_score_of (Stg.marks_obtained ar) (Stg.max_marks ar);
     Fact.recorded_by := Stg.recorded_by ar;
     Fact.dwh_created_at := CURRENT_TIMESTAMP env;
     Fact.dwh_updated_at := CURRENT_TIMESTAMP env;
     Fact.record_source := this env |}.

(** CTE [enriched_results]: the joined rows with [ar.rn = 1]. *)
Definition enriched_results : list Fact.row :=
  map (fun x =>
         let '((((ar, _), si), ti), sch, sub) := x in
         enrich ar si ti sch sub)
    (filter (fun x => Nat.eqb (snd (fst (fst (fst (fst x))))) 1) joined).

(** The [assessment_result_id]s the incremental load finds in the table:
    those of the rows dated from the first day of the year before the
    current one. *)
Definition already_loaded (target : list Fact.row) : list (option Z) :=
  let since := mk_date (year (CURRENT_DATE env) - 1) 1 1 in
  map Fact.assessment_result_id
    (filter (fun f => is_true (lift1 (date_leb since) (Fact.assessment_date f)))
       target).

(** [WHERE assessment_result_id NOT IN (...)] of the final [SELECT] *)
Definition not_loaded (f : Fact.row) : bool :=
  match mode with
  | FullRefresh => true
  | Incremental target =>
      is_true (NOT3 (IN_Z (Fact.assessment_result_id f) (already_loaded target)))
  end.

(** [QUALIFY ROW_NUMBER() OVER (PARTITION BY assessment_result_id
     ORDER BY recorded_at DESC) = 1] *)
Definition same_fact (a b : Fact.row) : bool :=
  opt_Z_eqb (Fact.assessment_result_id a) (Fact.assessment_result_id b).

Definition newer_fact (a b : Fact.row) : bool :=
  desc_before (Fact.recorded_at a) (Fact.recorded_at b).

Definition qualify (fs : list Fact.row) : list Fact.row :=
  FIRST_ROWS same_fact newer_fact fs.

(** [ORDER BY assessment_date, school_id, student_id, subject_id] *)
Definition date_number (d : option date) : option Z :=
  lift1 (fun x => (year x * 10000 + month x * 100 + day x)%Z) d.

Fixpoint lex_leb (a b : list (option Z)) : bool :=
  match a, b with
  | x :: a', y :: b' => if opt_Z_eqb x y then lex_leb a' b' else asc_leb x y
  | _, _ => true
  end.

Definition final_leb (a b : Fact.row) : bool :=
  let cols f := [date_number (Fact.assessment_date f); Fact.school_id f;
                 Fact.student_id f; Fact.subject_id f] in
  lex_leb (cols a) (cols b).

(** The model: the rows the run writes to [fct_assessment_results]. *)
Definition fct_assessment_results : list Fact.row :=
  ORDER_BY final_leb (qualify (filter not_loaded enriched_results)).

End Model.

End FctAssessmentResults.

(* ------------------------------------------------------------------ *)
(** ** marts/equity/equity_metrics *)

Module EquityMetrics.

Import Sql Calendar.
Local Open Scope string_scope.

(** The CTE [student_metrics] is entered at its grouped rows: one row per
    group of its [GROUP BY], with the grouping columns and the three
    aggregates.  (Its joins over the fact and the dimensions are not part
    of this model.) *)
Module Grouped.
Record row := mk {
  division_name : option string;
  district_name : option string;
  upazila_name : option string;
  urban_rural_classification : option string;
  gender : option string;
  age_group : option string;
  socioeconomic_status : option string;
  has_disability : option bool;
  school_type : option string;
  is_rural : option bool;
  education_level : option string;
  academic_year : option string;
  grade : option string;
  avg_performance : option Q;       (* AVG(ar.percentage) *)
  student_count : Z;                (* COUNT(DISTINCT ar.student_id) *)
  avg_attendance_rate : option Q    (* AVG(att.attendance_rate) *)
}.
End Grouped.

(** A row of the CTE [student_metrics]: the grouped row and the four
    equity indicators. *)
Module Metric.
Record row := mk {
  src : Grouped.row;
  is_female : Z;
  is_low_income : Z;
  has_disability_flag : Z;
  is_rural_area : Z
}.
End Metric.

(** The grouping columns of [equity_analysis]. *)
Record group_key := mk_key {
  division_name : option string;
  district_name : option string;
  upazila_name : option string;
  urban_rural_classification : option string;
  school_type : option string;
  education_level : option string;
  academic_year : option string;
  grade : option string
}.

(** A row of the CTE [equity_analysis]. *)
Module Analysis.
Record row := mk {
  key : group_key;
  total_students : option Z;
  overall_avg_performance : option Q;
  overall_attendance_rate : option Q;
  female_avg_performance : option Q;
  male_avg_performance : option Q;
  low_income_avg_performance : option Q;
  non_low_income_avg_performance : option Q;
  with_disability_avg_performance : option Q;
  without_disability_avg_performance : option Q;
  rural_avg_performance : option Q;
  urban_avg_performance : option Q;
  female_count : option Z;
  male_count : option Z;
  low_income_count : option Z;
  with_disability_count : option Z;
  rural_count : option Z
}.
End Analysis.

(** A row of the table [equity_metrics]. *)
Module Mart.
Record row := mk {
  equity_metric_key : string;
  key : group_key;
  total_students : option Z;
  overall_avg_performance : option Q;
  overall_attendance_rate : option Q;
  female_avg_performance : option Q;
  male_avg_performance : option Q;
  gender_gap : option Q;
  low_income_avg_performance : option Q;
  non_low_income_avg_performance : option Q;
  income_gap : option Q;
  with_disability_avg_performance : option Q;
  without_disability_avg_performance : option Q;
  disability_gap : option Q;
  rural_avg_performance : option Q;
  urban_avg_performance : option Q;
  urban_rural_gap : option Q;
  female_count : option Z;
  male_count : option Z;
  low_income_count : option Z;
  with_disability_count : option Z;
  rural_count : option Z;
  is_gender_equitable : Z;
  is_income_equitable : Z;
  is_disability_equitable : Z;
  is_location_equitable : Z;
  as_of_date : date;
  dwh_created_at : timestamp
}.
End Mart.

Definition str_is (x : option string) (v : string) : bool :=
  is_true (lift1 (String.eqb v) x).

(** The [SELECT] list of [student_metrics], past its aggregates. *)
Definition student_metric (g : Grouped.row) : Metric.row :=
  Metric.mk g
    (if str_is (Grouped.gender g) "Female" then 1 else 0)
    (if is_true (IN_str (Grouped.socioeconomic_status g) ["Low"; "Very Low"])
     then 1 else 0)
    (if is_true (Grouped.has_disability g) then 1 else 0)
    (if str_is (Grouped.urban_rural_classification g) "Rural" then 1 else 0).

(** CTE [student_metrics] *)
Definition student_metrics (gs : list Grouped.row) : list Metric.row :=
  map student_metric gs.

Definition key_of (m : Metric.row) : group_key :=
  let g := Metric.src m in
  mk_key (Grouped.division_name g) (Grouped.district_name g)
    (Grouped.upazila_name g) (Grouped.urban_rural_classification g)
    (Grouped.school_type g) (Grouped.education_level g)
    (Grouped.academic_year g) (Grouped.grade g).

Definition key_eq_dec (a b : group_key) : {a = b} + {a <> b}.
Proof. repeat decide equality. Defined.

Definition key_eqb (a b : group_key) : bool :=
  if key_eq_dec a b then true else false.

(** The distinct values of the grouping columns, NULLs grouped together. *)
Fixpoint distinct (ks : list group_key) : list group_key :=
  match ks with
  | [] => []
  | k :: tl => k :: filter (fun k' => negb (key_eqb k k')) (distinct tl)
  end.

(** [SUM(CASE WHEN c THEN avg_performance * student_count ELSE 0 END)] *)
Definition weighted_sum (c : Metric.row -> bool) (ms : list Metric.row)
  : option Q :=
  SUM_Q (map (fun m =>
                if c m
                then lift2 Qmult (Grouped.avg_performance (Metric.src m))
                       (Some (inject_Z (Grouped.student_count (Metric.src m))))
                else Some 0%Q) ms).

(** [SUM(CASE WHEN c THEN student_count ELSE 0 END)] *)
Definition count_where (c : Metric.row -> bool) (ms : list Metric.row)
  : option Z :=
  SUM_Z (map (fun m =>
                if c m then Some (Grouped.student_count (Metric.src m))
                else Some 0%Z) ms).

(** [SAFE_DIVIDE(SUM(..), NULLIF(SUM(..), 0))] *)
Definition subgroup_avg (c : Metric.row -> bool) (ms : list Metric.row)
  : option Q :=
  SAFE_DIVIDE (weighted_sum c ms) (NULLIF (lift1 inject_Z (count_where c ms)) 0).

Definition female (m : Metric.row) := str_is (Grouped.gender (Metric.src m)) "Female".
Definition male (m : Metric.row) := str_is (Grouped.gender (Metric.src m)) "Male".
Definition flag (f : Metric.row -> Z) (v : Z) (m : Metric.row) := (f m =? v)%Z.

(** The aggregates of one group of [equity_analysis]. *)
Definition analyse (k : group_key) (ms : list Metric.row) : Analysis.row :=
  {| Analysis.key := k;
     Analysis.total_students :=
       SUM_Z (map (fun m => Some (Grouped.student_count (Metric.src m))) ms);
     Analysis.overall_avg_performance :=
       AVG_Q (map (fun m => Grouped.avg_performance (Metric.src m)) ms);
     Analysis.overall_attendance_rate :=
       AVG_Q (map (fun m => Grouped.avg_attendance_rate (Metric.src m)) ms);
     Analysis.female_avg_performance := subgroup_avg female ms;
     Analysis.male_avg_performance := subgroup_avg male ms;
     Analysis.low_income_avg_performance :=
       subgroup_avg (flag Metric.is_low_income 1) ms;
     Analysis.non_low_income_avg_performance :=
       subgroup_avg (flag Metric.is_low_income 0) ms;
     Analysis.with_disability_avg_performance :=
       subgroup_avg (flag Metric.has_disability_flag 1) ms;
     Analysis.without_disability_avg_performance :=
       subgroup_avg (flag Metric.has_disability_flag 0) ms;
     Analysis.rural_avg_performance :=
       subgroup_avg (flag Metric.is_rural_area 1) ms;
     Analysis.urban_avg_performance :=
       subgroup_avg (flag Metric.is_rural_area 0) ms;
     Analysis.female_count := count_where female ms;
     Analysis.male_count := count_where male ms;
     Analysis.low_income_count := count_where (flag Metric.is_low_income 1) ms;
     Analysis.with_disability_count :=
       count_where (flag Metric.has_disability_flag 1) ms;
     Analysis.rural_count := count_where (flag Metric.is_rural_area 1) ms |}.

(** CTE [equity_analysis]: one row per distinct grouping key. *)
Definition equity_analysis (ms : list Metric.row) : list Analysis.row :=
  map (fun k => analyse k (filter (fun m => key_eqb k (key_of m)) ms))
    (distinct (map key_of ms)).

Definition at_least (x : option Z) (n : Z) : option bool :=
  lift1 (fun v => (n <=? v)%Z) x.

(** The final [WHERE]: only groups with sufficient data. *)
Definition sufficient (a : Analysis.row) : bool :=
  is_true
    (AND3 (AND3 (AND3 (AND3 (AND3
       (at_least (Analysis.total_students a) 10)
       (at_least (Analysis.female_count a) 5))
       (at_least (Analysis.male_count a) 5))
       (OR3 (at_least (Analysis.low_income_count a) 5)
            (Some (IS_NULL (Analysis.low_income_count a)))))
       (OR3 (at_least (Analysis.with_disability_count a) 3)
            (Some (IS_NULL (Analysis.with_disability_count a)))))
       (OR3 (at_least (Analysis.rural_count a) 5)
            (lift1 (fun v => (v =? 0)%Z) (Analysis.rural_count a)))).

(** [ROUND(advantaged - disadvantaged, 2)] *)
Definition gap (advantaged disadvantaged : option Q) : option Q :=
  lift1 ROUND2 (lift2 Qminus advantaged disadvantaged).

(** [CASE WHEN ABS(advantaged - disadvantaged) <= 5 THEN 1 ELSE 0 END] *)
Definition equitable (advantaged disadvantaged : option Q) : Z :=
  if is_true (lift1 (fun d => Qle_bool (Qabs d) 5)
                (lift2 Qminus advantaged disadvantaged))
  then 1 else 0.

(** The final [SELECT] list, for the [n]-th row. *)
Definition select_row (env : run) (n : nat) (a : Analysis.row) : Mart.row :=
  {| Mart.equity_metric_key := GENERATE_UUID env n;
     Mart.key := Analysis.key a;
     Mart.total_students := Analysis.total_students a;
     Mart.overall_avg_performance :=
       lift1 ROUND2 (Analysis.overall_avg_performance a);
     Mart.overall_attendance_rate :=
       lift1 (fun r => ROUND2 (r * 100)) (Analysis.overall_attendance_rate a);
     Mart.female_avg_performance :=
       lift1 ROUND2 (Analysis.female_avg_performance a);
     Mart.male_avg_performance := lift1 ROUND2 (Analysis.male_avg_performance a);
     Mart.gender_gap :=
       gap (Analysis.male_avg_performance a) (Analysis.female_avg_performance a);
     Mart.low_income_avg_performance :=
       lift1 ROUND2 (Analysis.low_income_avg_performance a);
     Mart.non_low_income_avg_performance :=
       lift1 ROUND2 (Analysis.non_low_income_avg_performance a);
     Mart.income_gap :=
       gap (Analysis.non_low_income_avg_performance a)
         (Analysis.low_income_avg_performance a);
     Mart.with_disability_avg_performance :=
       lift1 ROUND2 (Analysis.with_disability_avg_performance a);
     Mart.without_disability_avg_performance :=
       lift1 ROUND2 (Analysis.without_disability_avg_performance a);
     Mart.disability_gap :=
       gap (Analysis.without_disability_avg_performance a)
         (Analysis.with_disability_avg_performance a);
     Mart.rural_avg_performance := lift1 ROUND2 (Analysis.rural_avg_performance a);
     Mart.urban_avg_performance := lift1 ROUND2 (Analysis.urban_avg_performance a);
     Mart.urban_rural_gap :=
       gap (Analysis.urban_avg_performance a) (Analysis.rural_avg_performance a);
     Mart.female_count := Analysis.female_count a;
     Mart.male_count := Analysis.male_count a;
     Mart.low_income_count := Analysis.low_income_count a;
     Mart.with_disability_count := Analysis.with_disability_count a;
     Mart.rural_count := Analysis.rural_count a;
     Mart.is_gender_equitable :=
       equitable (Analysis.male_avg_performance a)
         (Analysis.female_avg_performance a);
     Mart.is_income_equitable :=
       equitable (Analysis.non_low_income_avg_performance a)
         (Analysis.low_income_avg_performance a);
     Mart.is_disability_equitable :=
       equitable (Analysis.without_disability_avg_performance a)
         (Analysis.with_disability_avg_performance a);
     Mart.is_location_equitable :=
       equitable (Analysis.urban_avg_performance a)
         (Analysis.rural_avg_performance a);
     Mart.as_of_date := CURRENT_DATE env;
     Mart.dwh_created_at := CURRENT_TIMESTAMP env |}.

Fixpoint select_rows (env : run) (n : nat) (l : list Analysis.row)
  : list Mart.row :=
  match l with
  | [] => []
  | a :: tl => select_row env n a :: select_rows env (S n) tl
  end.

(** The model: the table [equity_metrics] built from the grouped rows of
    [student_metrics]. *)
Definition equity_metrics (env : run) (gs : list Grouped.row) : list Mart.row :=
  select_rows env 0
    (filter sufficient (equity_analysis (student_metrics gs))).

End EquityMetrics.

(* ------------------------------------------------------------------ *)
(** ** [facts/fct_attendances]: the derived attendance columns, and the
    attendance rate [marts/equity/equity_metrics] takes from them *)

Module FctAttendances.

Import Sql.

(** The derived columns of [enriched_attendance]; [is_present] and
    [is_excused] are nullable BOOL columns of the staging model. *)
Definition present_count (is_present : option bool) : Z :=
  if is_true is_present then 1 else 0.

Definition excused_absence_count (is_present is_excused : option bool) : Z :=
  if is_true (AND3 (NOT3 is_present) is_excused) then 1 else 0.

Definition unexcused_absence_count (is_present is_excused : option bool) : Z :=
  if is_true (AND3 (NOT3 is_present) (NOT3 is_excused)) then 1 else 0.

Definition attendance_status (is_present is_excused : option bool) : string :=
  if is_true is_present then "Present"%string
  else if is_true (AND3 (NOT3 is_present) is_excused) then "Absent (Excused)"%string
  else if is_true (AND3 (NOT3 is_present) (NOT3 is_excused))
       then "Absent (Unexcused)"%string
  else "Unknown"%string.

(** [COUNTIF(c)] counts the rows whose condition is TRUE. *)
Definition COUNTIF (cs : list (option bool)) : Z :=
  Z.of_nat (List.length (filter is_true cs)).

(** [COUNTIF(is_present) / COUNT( * )] of the attendance subquery of the
    equity mart, over the [is_present] column of the rows of one group; a
    group has one row at least.  The engine computes the quotient in
    FLOAT64, the embedding keeps the exact rational. *)
Definition attendance_rate (first : option bool) (rest : list (option bool)) : Q :=
  COUNTIF (first :: rest) # Pos.of_succ_nat (List.length rest).

End FctAttendances.

(* ------------------------------------------------------------------ *)
(** ** Worked inputs *)

Module Examples.

Import Sql Calendar.
Local Open Scope string_scope.

(** Two runs that differ in nothing but the UUIDs the engine draws. *)
Definition run_a : run :=
  mk_run (fun n => "6f1c2a-" ++ Text.string_of_Z (Z.of_nat n))
    (mk_date 2025 1 15) (TIMESTAMP (mk_date 2025 1 15) 6 0 0)
    "warehouse.dimensions.dim_students".


Definition midnight (y m d : Z) : timestamp := TIMESTAMP (mk_date y m d) 0 0 0.

Definition student (id : Z) (name district status : string) (t : timestamp)
  : DimStudents.Raw.row :=
  DimStudents.Raw.mk (Some id) (Some name) (Some "F")
    (Some (mk_date 2010 5 17)) (Some "Dhaka") (Some district) (Some "Savar")
    (Some status) None None t.

(** The scenario of the specification: student 1 moves from district A to
    district B on 2024-06-01 (and leaves the low-income tier). *)
Definition feed_move : list DimStudents.Raw.row :=
  [ student 1 "Ayesha Rahman" "A" "Low" (midnight 2024 1 1);
    student 1 "Ayesha Rahman" "B" "High" (midnight 2024 6 1) ].

(** The feed sends the same attributes a second time. *)
Definition feed_repeat : list DimStudents.Raw.row :=
  [ student 1 "Ayesha Rahman" "A" "Low" (midnight 2024 1 1);
    student 1 "Ayesha Rahman" "A" "Low" (midnight 2024 6 1) ].


(** Two rows for the same student and timestamp, presented in either
    order. *)
Definition feed_tie : list DimStudents.Raw.row :=
  [ student 1 "Ayesha Rahman" "A" "Low" (midnight 2024 1 1);
    student 1 "Ayesha Rahman" "B" "Low" (midnight 2024 1 1) ].

Definition feed_tie_reversed : list DimStudents.Raw.row := rev feed_tie.

Definition build_dim (env : run) (feed : list DimStudents.Raw.row)
  : list DimStudents.Dim.row :=
  DimStudents.dim_students Builtins.MD5 Builtins.TO_HEX Builtins.LOWER env feed.

(** A stand-in for the surrogate-key macro: the hash of the two columns
    rendered as text and joined by a dash. *)
Definition surrogate_key (id : option Z) (t : option timestamp) : string :=
  let text x := COALESCE (lift1 Text.string_of_Z x) "_dbt_utils_surrogate_key_null_" in
  Builtins.TO_HEX (Builtins.MD5 (text id ++ "-" ++ text t)).

Definition result (id student : Z) (on : date) (marks max pct : Q)
  (recorded : timestamp) : FctAssessmentResults.Stg.row :=
  FctAssessmentResults.Stg.mk (Some id) (Some student) (Some 7) (Some 3)
    (Some 40) (Some on) (Some "2024") (Some "Term 1") (Some 5) (Some "8")
    (Some "A") (Some marks) (Some max) (Some pct) None None None
    (Some recorded) (Some "clerk") (Some "Exam") None (Some false).

Definition teachers : list FctAssessmentResults.Teacher.row :=
  [ FctAssessmentResults.Teacher.mk (Some 7) (Some "Karim Uddin")
      (Some "Mathematics") (Some 12) true ].

Definition schools : list FctAssessmentResults.School.row :=
  [ FctAssessmentResults.School.mk (Some 3) (Some "Savar Model School")
      (Some "Public") (Some "Secondary") (Some false) true ].

Definition subjects : list FctAssessmentResults.Subject.row :=
  [ FctAssessmentResults.Subject.mk (Some 5) (Some "Mathematics") ].

Definition warehouse (staged : list FctAssessmentResults.Stg.row)
  : FctAssessmentResults.sources :=
  FctAssessmentResults.mk_sources staged (build_dim run_a feed_move)
    teachers schools subjects.

Definition build_fact (staged : list FctAssessmentResults.Stg.row)
  : list FctAssessmentResults.Fact.row :=
  FctAssessmentResults.fct_assessment_results surrogate_key run_a
    FctAssessmentResults.FullRefresh (warehouse staged).

(** An exam sat on 2024-03-10, before the student's move. *)
Definition exam_before_move : list FctAssessmentResults.Stg.row :=
  [ result 1 1 (mk_date 2024 3 10) 45 50 90 (midnight 2024 3 12) ].


(** Three versions of result 1, the newest in the middle. *)
Definition batch_with_versions : list FctAssessmentResults.Stg.row :=
  [ result 1 1 (mk_date 2024 3 10) 40 50 80 (midnight 2024 3 12);
    result 1 1 (mk_date 2024 3 10) 45 50 90 (midnight 2024 3 20);
    result 1 1 (mk_date 2024 3 10) 42 50 84 (midnight 2024 3 15);
    result 2 1 (mk_date 2024 3 11) 20 50 40 (midnight 2024 3 12) ].

(** A quiz marked out of one. *)
Definition quiz_out_of_one : list FctAssessmentResults.Stg.row :=
  [ result 1 1 (mk_date 2024 3 10) 1 1 100 (midnight 2024 3 12) ].

(** A row the table already holds: result 1, as loaded by an earlier run. *)
Definition loaded_fact : FctAssessmentResults.Fact.row :=
  FctAssessmentResults.enrich surrogate_key run_a
    (result 1 1 (mk_date 2024 3 10) 40 50 80 (midnight 2024 3 12))
    None None None None.

(** A row of the table that lacks its [assessment_result_id]. *)
Definition fact_without_id : FctAssessmentResults.Fact.row :=
  FctAssessmentResults.enrich surrogate_key run_a
    (FctAssessmentResults.Stg.mk None (Some 1) (Some 7) (Some 3) (Some 40)
       (Some (mk_date 2024 3 10)) (Some "2024") (Some "Term 1") (Some 5)
       (Some "8") (Some "A") (Some 40%Q) (Some 50%Q) (Some 80%Q) None None None
       (Some (midnight 2024 3 12)) (Some "clerk") (Some "Exam") None
       (Some false))
    None None None None.

Definition build_fact_incrementally (target : list FctAssessmentResults.Fact.row)
  (staged : list FctAssessmentResults.Stg.row)
  : list FctAssessmentResults.Fact.row :=
  FctAssessmentResults.fct_assessment_results surrogate_key run_a
    (FctAssessmentResults.Incremental target) (warehouse staged).

Definition cohort (upazila gender status : string) (disabled : bool)
  (avg : Q) (students : Z) : EquityMetrics.Grouped.row :=
  EquityMetrics.Grouped.mk (Some "Dhaka") (Some "Dhaka") (Some upazila)
    (Some "Urban") (Some gender) (Some "10-14") (Some status) (Some disabled)
    (Some "Public") (Some false) (Some "Secondary") (Some "2024") (Some "8")
    (Some avg) students (Some (9 # 10)).



(** One group with boys at 80 and girls at 72. *)
Definition eighty_seventy_two : list EquityMetrics.Grouped.row :=
  [ cohort "Keraniganj" "Female" "Low" true 72 6;
    cohort "Keraniganj" "Male" "Low" false 80 6 ].


End Examples.

(* ------------------------------------------------------------------ *)
(** * Properties *)

(** ** The SQL operators *)

Module SqlFacts.

Import Sql.

Section OrderBy.

Context {A : Type} (leb : A -> A -> bool).

Let le (x y : A) : Prop := leb x y = true.

Lemma insert_by_perm (x : A) (l : list A) :
  Permutation (insert_by leb x l) (x :: l).
Proof.
  induction l as [|y tl IH]; simpl.
  - apply Permutation_refl.
  - destruct (leb x y).
    + apply Permutation_refl.
    + eapply Permutation_trans.
      * apply perm_skip, IH.
      * apply perm_swap.
Qed.

Lemma ORDER_BY_perm (l : list A) : Permutation (ORDER_BY leb l) l.
Proof.
  induction l as [|x tl IH]; simpl.
  - apply perm_nil.
  - eapply Permutation_trans.
    + apply insert_by_perm.
    + apply perm_skip, IH.
Qed.

Lemma ORDER_BY_In (x : A) (l : list A) : In x (ORDER_BY leb l) <-> In x l.
Proof.
  split; apply Permutation_in;
    [ apply ORDER_BY_perm | apply Permutation_sym, ORDER_BY_perm ].
Qed.


(** A list that is already in order is left as it is. *)
Lemma ORDER_BY_of_sorted (l : list A) : Sorted le l -> ORDER_BY leb l = l.
Proof.
  induction 1 as [|x tl Hs IH Hhd]; simpl.
  - reflexivity.
  - rewrite IH. destruct Hhd as [|y tl' Hxy]; simpl.
    + reflexivity.
    + unfold le in Hxy. rewrite Hxy. reflexivity.
Qed.

(** The sort is stable: the rows of a class whose members all tie keep
    their order of presentation. *)
Lemma insert_by_filter (p : A -> bool) (x : A) (l : list A) :
  (forall y, p x = true -> p y = true -> leb x y = true) ->
  filter p (insert_by leb x l) = filter p (x :: l).
Proof.
  intros Htie. induction l as [|y tl IH]; simpl.
  - reflexivity.
  - destruct (leb x y) eqn:Hxy; simpl.
    + reflexivity.
    + rewrite IH. simpl.
      destruct (p y) eqn:Hpy; [|reflexivity].
      destruct (p x) eqn:Hpx; [|reflexivity].
      rewrite (Htie y eq_refl Hpy) in Hxy. discriminate.
Qed.

Lemma ORDER_BY_stable (p : A -> bool) (l : list A) :
  (forall x y, p x = true -> p y = true -> leb x y = true) ->
  filter p (ORDER_BY leb l) = filter p l.
Proof.
  intros Htie. induction l as [|x tl IH]; simpl.
  - reflexivity.
  - rewrite insert_by_filter by (intros y; apply Htie).
    simpl. rewrite IH. reflexivity.
Qed.

Hypothesis leb_total : forall x y, leb x y = true \/ leb y x = true.

Lemma insert_by_sorted (x : A) (l : list A) :
  Sorted le l -> Sorted le (insert_by leb x l).
Proof.
  induction 1 as [|y tl Hs IH Hhd]; simpl.
  - repeat constructor.
  - destruct (leb x y) eqn:Hxy.
    + constructor; [constructor; assumption | constructor; exact Hxy].
    + constructor; [exact IH|].
      destruct Hhd as [|z tl' Hyz]; simpl.
      * constructor. destruct (leb_total x y) as [H|H]; [congruence | exact H].
      * destruct (leb x z); constructor; try assumption.
        destruct (leb_total x y) as [H|H]; [congruence | exact H].
Qed.

Lemma ORDER_BY_sorted (l : list A) : Sorted le (ORDER_BY leb l).
Proof.
  induction l as [|x tl IH]; simpl.
  - constructor.
  - apply insert_by_sorted, IH.
Qed.

End OrderBy.

Section LeftJoin.

Context {A B : Type} (on : A -> B -> bool).

Lemma In_LEFT_JOIN (a : A) (ob : option B) (l : list A) (r : list B) :
  In (a, ob) (LEFT_JOIN on l r) <->
  In a l /\ match ob with
            | Some b => In b r /\ on a b = true
            | None => forall b, In b r -> on a b = false
            end.
Proof.
  unfold LEFT_JOIN. rewrite in_flat_map. split.
  - intros (a' & Ha' & Hin).
    destruct (filter (on a') r) as [|m ms] eqn:Hf.
    + simpl in Hin. destruct Hin as [Heq|[]]. inversion Heq; subst a ob.
      split; [exact Ha'|]. intros b Hb.
      destruct (on a' b) eqn:Hon; [|reflexivity].
      assert (Hx : In b (filter (on a') r)) by (apply filter_In; auto).
      rewrite Hf in Hx. destruct Hx.
    + rewrite <- Hf in Hin. apply in_map_iff in Hin.
      destruct Hin as (b & Heq & Hb). inversion Heq; subst a ob.
      apply filter_In in Hb. tauto.
  - intros (Ha & Hob). exists a. split; [exact Ha|].
    destruct ob as [b|].
    + destruct Hob as (Hb & Hon).
      assert (Hx : In b (filter (on a) r)) by (apply filter_In; auto).
      destruct (filter (on a) r) as [|m ms] eqn:Hf; [destruct Hx|].
      rewrite <- Hf. apply in_map_iff. exists b. rewrite Hf. auto.
    + destruct (filter (on a) r) as [|m ms] eqn:Hf; [left; reflexivity|].
      assert (Hx : In m (filter (on a) r)) by (rewrite Hf; left; reflexivity).
      apply filter_In in Hx. destruct Hx as (Hm & Hon).
      rewrite (Hob m Hm) in Hon. discriminate.
Qed.

(** No left row is lost. *)
Lemma LEFT_JOIN_keeps (a : A) (l : list A) (r : list B) :
  In a l -> exists ob, In (a, ob) (LEFT_JOIN on l r).
Proof.
  intros Ha. destruct (filter (on a) r) as [|m ms] eqn:Hf.
  - exists None. apply In_LEFT_JOIN. split; [exact Ha|]. intros b Hb.
    destruct (on a b) eqn:Hon; [|reflexivity].
    assert (Hx : In b (filter (on a) r)) by (apply filter_In; auto).
    rewrite Hf in Hx. destruct Hx.
  - exists (Some m). apply In_LEFT_JOIN. split; [exact Ha|].
    assert (Hx : In m (filter (on a) r)) by (rewrite Hf; left; reflexivity).
    apply filter_In in Hx. exact Hx.
Qed.

End LeftJoin.

Lemma opt_Z_eqb_eq (x y : option Z) : opt_Z_eqb x y = true <-> x = y.
Proof.
  destruct x as [a|], y as [b|]; simpl; split; intros H;
    try discriminate; try reflexivity.
  - apply Z.eqb_eq in H. congruence.
  - inversion H. apply Z.eqb_refl.
Qed.

Lemma desc_before_asym (x y : option Z) :
  desc_before x y = true -> desc_before y x = false.
Proof.
  destruct x as [a|], y as [b|]; simpl; intros H;
    try discriminate; try reflexivity.
  apply Z.ltb_lt in H. apply Z.ltb_ge. lia.
Qed.

Lemma desc_before_trans (x y z : option Z) :
  desc_before x y = true -> desc_before y z = true -> desc_before x z = true.
Proof.
  destruct x as [a|], y as [b|], z as [c|]; simpl; intros H1 H2;
    try discriminate; try reflexivity.
  apply Z.ltb_lt in H1, H2. apply Z.ltb_lt. lia.
Qed.

Lemma desc_before_neg_trans (x y z : option Z) :
  desc_before x y = false -> desc_before y z = false -> desc_before x z = false.
Proof.
  destruct x as [a|], y as [b|], z as [c|]; simpl; intros H1 H2;
    try discriminate; try reflexivity.
  apply Z.ltb_ge in H1, H2. apply Z.ltb_ge. lia.
Qed.

Section Scan.

Context {A : Type} (same before : A -> A -> bool).

Let ahead (x : A) (y : A) : bool := same y x && negb (before x y).
Let behind (x : A) (y : A) : bool := same y x && before y x.

Lemma row_number_scan_split (seen rest : list A) (x : A) (n : nat) :
  In (x, n) (row_number_scan same before seen rest) <->
  exists l1 l2,
    rest = l1 ++ x :: l2 /\
    n = S (List.length (filter (ahead x) (seen ++ l1))
           + List.length (filter (behind x) l2)).
Proof.
  revert seen. induction rest as [|y tl IH]; intros seen; simpl.
  - split; [intros [] | intros (l1 & l2 & H & _); destruct l1; discriminate].
  - split.
    + intros [Heq | Hin].
      * inversion Heq; subst. exists [], tl. rewrite app_nil_r. auto.
      * apply IH in Hin. destruct Hin as (l1 & l2 & -> & ->).
        exists (y :: l1), l2. rewrite <- app_assoc. auto.
    + intros (l1 & l2 & Hrest & ->). destruct l1 as [|z l1]; simpl in Hrest.
      * inversion Hrest; subst. left. rewrite app_nil_r. reflexivity.
      * inversion Hrest; subst. right. apply IH. exists l1, l2.
        rewrite <- app_assoc. auto.
Qed.

Lemma ROW_NUMBER_split (rows : list A) (x : A) (n : nat) :
  In (x, n) (ROW_NUMBER same before rows) <->
  exists l1 l2,
    rows = l1 ++ x :: l2 /\
    n = S (List.length (filter (ahead x) l1)
           + List.length (filter (behind x) l2)).
Proof. unfold ROW_NUMBER. rewrite row_number_scan_split. reflexivity. Qed.

Lemma filter_nil_iff (p : A -> bool) (l : list A) :
  List.length (filter p l) = 0%nat <-> forall z, In z l -> p z = false.
Proof.
  induction l as [|y tl IH]; simpl.
  - split; [intros _ z [] | reflexivity].
  - destruct (p y) eqn:Hp; simpl.
    + split; [discriminate|]. intros H. rewrite (H y) in Hp by auto. discriminate.
    + rewrite IH. split.
      * intros H z [<-|Hz]; auto.
      * intros H z Hz. apply H. auto.
Qed.

(** The row numbered 1: nothing of its partition before it ties with it
    or beats it, nothing after it beats it. *)
Lemma ROW_NUMBER_first (rows : list A) (x : A) :
  In (x, 1%nat) (ROW_NUMBER same before rows) <->
  exists l1 l2,
    rows = l1 ++ x :: l2 /\
    (forall z, In z l1 -> same z x = true -> before x z = true) /\
    (forall z, In z l2 -> same z x = true -> before z x = false).
Proof.
  rewrite ROW_NUMBER_split. split.
  - intros (l1 & l2 & Hrows & Hn). exists l1, l2. split; [exact Hrows|].
    assert (H1 : List.length (filter (ahead x) l1) = 0%nat) by lia.
    assert (H2 : List.length (filter (behind x) l2) = 0%nat) by lia.
    rewrite filter_nil_iff in H1, H2. split.
    + intros z Hz Hs. specialize (H1 z Hz). unfold ahead in H1.
      rewrite Hs in H1. simpl in H1. destruct (before x z); [reflexivity|discriminate].
    + intros z Hz Hs. specialize (H2 z Hz). unfold behind in H2.
      rewrite Hs in H2. exact H2.
  - intros (l1 & l2 & Hrows & H1 & H2). exists l1, l2. split; [exact Hrows|].
    assert (E1 : List.length (filter (ahead x) l1) = 0%nat).
    { apply filter_nil_iff. intros z Hz. unfold ahead.
      destruct (same z x) eqn:Hs; [|reflexivity]. rewrite (H1 z Hz Hs). reflexivity. }
    assert (E2 : List.length (filter (behind x) l2) = 0%nat).
    { apply filter_nil_iff. intros z Hz. unfold behind.
      destruct (same z x) eqn:Hs; [|reflexivity]. rewrite (H2 z Hz Hs). reflexivity. }
    rewrite E1, E2. reflexivity.
Qed.

Lemma ROW_NUMBER_In (rows : list A) (x : A) (n : nat) :
  In (x, n) (ROW_NUMBER same before rows) -> In x rows.
Proof.
  rewrite ROW_NUMBER_split. intros (l1 & l2 & -> & _).
  apply in_or_app. right. left. reflexivity.
Qed.

End Scan.

(** Partitions by a key column, ordered by a timestamp column, newest row
    first: the window of both [ROW_NUMBER]s of the fact model. *)
Section Latest.

Context {A : Type} (key time : A -> option Z).

Let same (a b : A) : bool := opt_Z_eqb (key a) (key b).
Let before (a b : A) : bool := desc_before (time a) (time b).

Let firsts (rows : list A) : list A := FIRST_ROWS same before rows.

Lemma In_firsts (rows : list A) (x : A) :
  In x (firsts rows) <-> In (x, 1%nat) (ROW_NUMBER same before rows).
Proof.
  unfold firsts, FIRST_ROWS. rewrite in_map_iff. split.
  - intros ([y n] & Hfst & Hin). simpl in Hfst. subst y.
    apply filter_In in Hin. destruct Hin as (Hin & Hn). simpl in Hn.
    apply Nat.eqb_eq in Hn. subst n. exact Hin.
  - intros Hin. exists (x, 1%nat). split; [reflexivity|].
    apply filter_In. split; [exact Hin | reflexivity].
Qed.

(** No row of the partition is newer than the one numbered 1. *)
Lemma first_is_latest (rows : list A) (x : A) :
  In x (firsts rows) ->
  In x rows /\
  forall z, In z rows -> key z = key x -> desc_before (time z) (time x) = false.
Proof.
  rewrite In_firsts. intros Hin. split; [eapply ROW_NUMBER_In; exact Hin|].
  apply ROW_NUMBER_first in Hin. destruct Hin as (l1 & l2 & -> & H1 & H2).
  intros z Hz Hk. assert (Hs : same z x = true) by (apply opt_Z_eqb_eq; exact Hk).
  apply in_app_or in Hz. destruct Hz as [Hz | [<- | Hz]].
  - apply desc_before_asym. apply (H1 z Hz Hs).
  - destruct (desc_before (time x) (time x)) eqn:E; [|reflexivity].
    apply desc_before_asym in E as E'. congruence.
  - apply (H2 z Hz Hs).
Qed.

(** One row at most per key carries the number 1. *)
Lemma firsts_scan_NoDup (seen rest : list A) :
  NoDup (map key (map fst (filter (fun x => Nat.eqb (snd x) 1)
                             (row_number_scan same before seen rest)))).
Proof.
  revert seen. induction rest as [|x tl IH]; intros seen.
  - constructor.
  - cbn [row_number_scan]. set (n := S (_ + _)). cbn [filter snd].
    destruct (Nat.eqb n 1) eqn:Hn; cbn [map fst]; [|apply IH].
    constructor; [|apply IH].
    intros Hin. apply in_map_iff in Hin. destruct Hin as (y & Hk & Hy).
    apply in_map_iff in Hy. destruct Hy as ([y' m] & Hfst & Hy). simpl in Hfst. subst y'.
    apply filter_In in Hy. destruct Hy as (Hy & Hm). simpl in Hm.
    apply Nat.eqb_eq in Hm. subst m.
    apply row_number_scan_split in Hy. destruct Hy as (l1 & l2 & Htl & Hone).
    apply Nat.eqb_eq in Hn. unfold n in Hn.
    assert (Hs : same x y = true) by (apply opt_Z_eqb_eq; congruence).
    assert (Hs' : same y x = true) by (apply opt_Z_eqb_eq; congruence).
    (* [y] comes after [x] and carries 1: it beats [x] *)
    assert (B1 : before y x = true).
    { assert (E : List.length (filter (fun z => same z y && negb (before y z))
                                 ((seen ++ [x]) ++ l1)) = 0%nat) by lia.
      rewrite filter_nil_iff in E.
      specialize (E x). rewrite Hs in E. simpl in E.
      destruct (before y x); [reflexivity|].
      discriminate E. apply in_or_app. left. apply in_or_app. right. left. reflexivity. }
    (* [x] carries 1: nothing after it beats it *)
    assert (B2 : before y x = false).
    { assert (E : List.length (filter (fun z => same z x && before z x) tl) = 0%nat) by lia.
      rewrite filter_nil_iff in E.
      specialize (E y). rewrite Hs' in E. simpl in E. apply E.
      rewrite Htl. apply in_or_app. right. left. reflexivity. }
    congruence.
Qed.

Lemma firsts_NoDup (rows : list A) : NoDup (map key (firsts rows)).
Proof. unfold firsts, FIRST_ROWS, ROW_NUMBER. apply firsts_scan_NoDup. Qed.

(** Every partition has a row numbered 1: its newest row, the first
    presented among the newest. *)
Lemma leftmost_latest (rows : list A) (k : option Z) :
  (exists x, In x rows /\ key x = k) ->
  exists l1 y l2,
    rows = l1 ++ y :: l2 /\ key y = k /\
    (forall z, In z l1 -> key z = k -> before y z = true) /\
    (forall z, In z l2 -> key z = k -> before z y = false).
Proof.
  induction rows as [|a tl IH]; intros (x & Hx & Hk).
  - destruct Hx.
  - destruct (existsb (fun z => opt_Z_eqb (key z) k) tl) eqn:Hex.
    + apply existsb_exists in Hex. destruct Hex as (x' & Hx' & Hk').
      apply opt_Z_eqb_eq in Hk'.
      destruct (IH (ex_intro _ x' (conj Hx' Hk')))
        as (l1 & y & l2 & -> & Hy & H1 & H2).
      destruct (opt_Z_eqb (key a) k) eqn:Ha.
      * apply opt_Z_eqb_eq in Ha.
        destruct (before y a) eqn:Hya.
        -- exists (a :: l1), y, l2.
           split; [reflexivity|]. split; [exact Hy|]. split; [|exact H2].
           intros z [<-|Hz] Hz'; [exact Hya | apply (H1 z Hz Hz')].
        -- exists [], a, (l1 ++ y :: l2).
           split; [reflexivity|]. split; [exact Ha|]. split; [intros z []|].
           intros z Hz Hz'. apply in_app_or in Hz. destruct Hz as [Hz|[<-|Hz]].
           ++ destruct (before z a) eqn:E; [|reflexivity].
              unfold before in *.
              rewrite (desc_before_trans _ _ _ (H1 z Hz Hz') E) in Hya. discriminate.
           ++ exact Hya.
           ++ unfold before in *.
              eapply desc_before_neg_trans; [apply (H2 z Hz Hz') | exact Hya].
      * exists (a :: l1), y, l2.
        split; [reflexivity|]. split; [exact Hy|]. split; [|exact H2].
        intros z [<-|Hz] Hz'; [|apply (H1 z Hz Hz')].
        apply opt_Z_eqb_eq in Hz'. congruence.
    + assert (Hnone : forall z, In z tl -> key z <> k).
      { intros z Hz Hzk.
        assert (existsb (fun z => opt_Z_eqb (key z) k) tl = true).
        { apply existsb_exists. exists z. split; [exact Hz|]. apply opt_Z_eqb_eq. exact Hzk. }
        congruence. }
      destruct Hx as [<-|Hx]; [|exfalso; apply (Hnone x Hx Hk)].
      exists [], a, tl.
      split; [reflexivity|]. split; [exact Hk|]. split; [intros z []|].
      intros z Hz Hz'. exfalso. apply (Hnone z Hz Hz').
Qed.

Lemma firsts_exists (rows : list A) (x : A) :
  In x rows -> exists y, In y (firsts rows) /\ key y = key x.
Proof.
  intros Hx.
  destruct (leftmost_latest rows (key x) (ex_intro _ x (conj Hx eq_refl)))
    as (l1 & y & l2 & Hrows & Hy & H1 & H2).
  exists y. split; [|exact Hy].
  apply In_firsts. apply ROW_NUMBER_first. exists l1, l2. split; [exact Hrows|].
  split.
  - intros z Hz Hs. apply H1; [exact Hz|]. apply opt_Z_eqb_eq in Hs. congruence.
  - intros z Hz Hs. apply H2; [exact Hz|]. apply opt_Z_eqb_eq in Hs. congruence.
Qed.

End Latest.

Lemma NoDup_map_eq {A B : Type} (g : A -> B) (l : list A) (a b : A) :
  NoDup (map g l) -> In a l -> In b l -> g a = g b -> a = b.
Proof.
  induction l as [|x tl IH]; simpl; intros Hnd Ha Hb Hg; [destruct Ha|].
  inversion Hnd as [|? ? Hx Htl]; subst.
  destruct Ha as [<-|Ha], Hb as [<-|Hb]; auto.
  - exfalso. apply Hx. rewrite Hg. apply in_map. exact Hb.
  - exfalso. apply Hx. rewrite <- Hg. apply in_map. exact Ha.
Qed.

End SqlFacts.

(* ------------------------------------------------------------------ *)
(** ** dimensions/dim_students *)

Module DimStudentsFacts.

Import Sql Calendar SqlFacts DimStudents.

(** *** The window order *)

Lemma same_version_eq (a b : Raw.row) :
  same_version a b = true <-> version a = version b.
Proof.
  unfold same_version, same_student, version.
  rewrite andb_true_iff, opt_Z_eqb_eq, Z.eqb_eq.
  split; [intros (-> & ->); reflexivity | intros H; inversion H; auto].
Qed.

Ltac by_cases_on_ids a b :=
  unfold window_leb, same_student, opt_Z_eqb, asc_leb;
  destruct (Raw.student_id a) as [?i|], (Raw.student_id b) as [?j|].

Lemma window_leb_total (a b : Raw.row) :
  window_leb a b = true \/ window_leb b a = true.
Proof.
  by_cases_on_ids a b; try (rewrite (Z.eqb_sym j i));
    try destruct (i =? j) eqn:E; auto;
    rewrite ?Z.leb_le; try lia; apply Z.eqb_neq in E; lia.
Qed.

Lemma window_leb_trans (a b c : Raw.row) :
  window_leb a b = true -> window_leb b c = true -> window_leb a c = true.
Proof.
  unfold window_leb, same_student, opt_Z_eqb, asc_leb.
  destruct (Raw.student_id a) as [i|], (Raw.student_id b) as [j|],
    (Raw.student_id c) as [k|]; try discriminate; try reflexivity;
    try (destruct (i =? j) eqn:E1; [apply Z.eqb_eq in E1 | apply Z.eqb_neq in E1]);
    try (destruct (j =? k) eqn:E2; [apply Z.eqb_eq in E2 | apply Z.eqb_neq in E2]);
    try (destruct (i =? k) eqn:E3; [apply Z.eqb_eq in E3 | apply Z.eqb_neq in E3]);
    rewrite ?Z.leb_le; intros; try lia.
Qed.

(** Between two rows of one version lie only rows of that version. *)
Lemma window_leb_sandwich (a x b : Raw.row) :
  window_leb a x = true -> window_leb x b = true ->
  same_version a b = true -> same_version x b = true.
Proof.
  unfold same_version, window_leb, same_student, opt_Z_eqb, asc_leb.
  destruct (Raw.student_id a) as [i|], (Raw.student_id x) as [j|],
    (Raw.student_id b) as [k|]; try discriminate; simpl;
    try (destruct (i =? j) eqn:E1; [apply Z.eqb_eq in E1 | apply Z.eqb_neq in E1]);
    try (destruct (j =? k) eqn:E2; [apply Z.eqb_eq in E2 | apply Z.eqb_neq in E2]);
    try (destruct (i =? k) eqn:E3; [apply Z.eqb_eq in E3 | apply Z.eqb_neq in E3]);
    simpl; rewrite ?Z.leb_le, ?Z.eqb_eq; intros; try discriminate; try lia.
Qed.

Lemma ORDER_BY_window (l : list Raw.row) :
  in_window_order (ORDER_BY window_leb l).
Proof.
  apply Sorted_StronglySorted.
  - intros a b c. apply window_leb_trans.
  - apply ORDER_BY_sorted. apply window_leb_total.
Qed.

(** *** The scan of the windows *)

Lemma filter_and {A} (p q : A -> bool) (l : list A) :
  filter (fun x => p x && q x) l = filter p (filter q l).
Proof.
  induction l as [|x tl IH]; simpl; [reflexivity|].
  destruct (q x); simpl; rewrite ?andb_true_r, ?andb_false_r, IH;
    [destruct (p x)|]; reflexivity.
Qed.

Lemma NoDup_map_filter {A B} (g : A -> B) (p : A -> bool) (l : list A) :
  NoDup (map g l) -> NoDup (map g (filter p l)).
Proof.
  induction l as [|x tl IH]; simpl; intros H; [constructor|].
  inversion H as [|? ? Hx Htl]; subst. destruct (p x); simpl; [|auto].
  constructor; [|auto]. intros Hin. apply Hx.
  apply in_map_iff in Hin. destruct Hin as (y & Hy & Hin).
  apply filter_In in Hin. rewrite <- Hy. apply in_map. tauto.
Qed.


Lemma StronglySorted_filter {A} (R : A -> A -> Prop) (p : A -> bool) (l : list A) :
  StronglySorted R l -> StronglySorted R (filter p l).
Proof.
  induction 1 as [|x tl Hs IH Hall]; simpl; [constructor|].
  destruct (p x); [|exact IH]. constructor; [exact IH|].
  rewrite Forall_forall in *. intros y Hy. apply filter_In in Hy. apply Hall. tauto.
Qed.

Section Model.

Variable MD5 : string -> string.
Variable TO_HEX : string -> string.
Variable LOWER : string -> string.

Let scan := window_scan MD5 TO_HEX.

Lemma scan_src (prev : option Raw.row) (k : nat) (l : list Raw.row) :
  map Updates.src (scan prev k l) = l.
Proof.
  revert prev k. induction l as [|r rest IH]; intros prev k; simpl.
  - reflexivity.
  - f_equal. apply IH.
Qed.


(** In a run of rows of one version only the first carries [rn = 1]. *)
Lemma scan_first_of_version (p : Raw.row) (k : nat) (rest : list Raw.row)
  (u : Updates.row) :
  k <> 0%nat -> in_window_order (p :: rest) ->
  In u (scan (Some p) k rest) -> Updates.rn u = 1%nat ->
  same_version p (Updates.src u) = false.
Proof.
  revert p k. induction rest as [|x rest' IH]; intros p k Hk Hs Hu Hrn.
  - destruct Hu.
  - inversion Hs as [|? ? Hs' Hall]; subst.
    simpl in Hu. destruct Hu as [<- | Hu].
    + simpl in *. destruct (same_version p x); [lia | reflexivity].
    + destruct (same_version p (Updates.src u)) eqn:E; [|reflexivity].
      assert (Hin : In (Updates.src u) rest').
      { rewrite <- (scan_src (Some x)
                      (if same_version p x then S k else 1%nat) rest').
        apply in_map. exact Hu. }
      inversion Hs' as [|? ? Hs'' Hall']; subst.
      rewrite Forall_forall in Hall, Hall'.
      assert (Hx : same_version x (Updates.src u) = true).
      { apply (window_leb_sandwich p); [apply Hall; left; reflexivity | | exact E].
        apply Hall'. exact Hin. }
      rewrite (IH x (if same_version p x then S k else 1%nat)) in Hx;
        [discriminate | | exact Hs' | exact Hu | exact Hrn].
      destruct (same_version p x); lia.
Qed.

Lemma scan_versions_NoDup (prev : option Raw.row) (k : nat) (l : list Raw.row) :
  in_window_order l ->
  NoDup (map (fun u => version (Updates.src u))
           (filter (fun u => Nat.eqb (Updates.rn u) 1) (scan prev k l))).
Proof.
  revert prev k. induction l as [|r rest IH]; intros prev k Hs.
  - constructor.
  - inversion Hs as [|? ? Hs' Hall]; subst.
    cbn [scan window_scan]. set (n := match prev with
              | Some p => if same_version p r then S k else 1%nat
              | None => 1%nat
              end).
    cbn [filter Updates.rn].
    destruct (Nat.eqb n 1) eqn:Hn; cbn [map]; [|apply IH; exact Hs'].
    constructor; [|apply IH; exact Hs'].
    cbn [Updates.src]. intros Hin. apply in_map_iff in Hin.
    destruct Hin as (u & Hv & Hu). apply filter_In in Hu.
    destruct Hu as (Hu & Hrn). apply Nat.eqb_eq in Hrn, Hn.
    assert (Hsame : same_version r (Updates.src u) = true)
      by (apply same_version_eq; symmetry; exact Hv).
    rewrite (scan_first_of_version r n rest u) in Hsame;
      [discriminate | lia | exact Hs | exact Hu | exact Hrn].
Qed.

(** *** From the scan to the table *)

Let updates := student_updates MD5 TO_HEX.
Let table := dim_students MD5 TO_HEX LOWER.

Let staged_rows (raw : list Raw.row) : list Raw.row :=
  ORDER_BY window_leb (filter (fun r => negb (IS_NULL (Raw.student_id r))) raw).

Lemma select_rows_keys (env : run) (today : date) (n : nat) (us : list Updates.row) :
  map natural_key (select_rows env n (map (changed_record LOWER today) us))
  = map (fun u => version (Updates.src u)) us.
Proof.
  revert n. induction us as [|u tl IH]; intros n; simpl; [reflexivity|].
  f_equal. apply IH.
Qed.


Lemma final_leb_keys (a b : Dim.row) (x y : Raw.row) :
  natural_key a = version x -> natural_key b = version y ->
  final_leb a b = window_leb x y.
Proof.
  unfold natural_key, version, final_leb, window_leb, same_student.
  intros Ha Hb. inversion Ha. inversion Hb. reflexivity.
Qed.

Lemma select_rows_sorted (env : run) (today : date) (n : nat) (us : list Updates.row) :
  Sorted (fun a b => window_leb a b = true) (map Updates.src us) ->
  Sorted (fun a b => final_leb a b = true)
    (select_rows env n (map (changed_record LOWER today) us)).
Proof.
  revert n. induction us as [|u tl IH]; intros n Hs; simpl; [constructor|].
  inversion Hs as [|? ? Hs' Hhd]; subst. constructor; [apply IH; exact Hs'|].
  destruct tl as [|v tl']; simpl; [constructor|].
  constructor. inversion Hhd; subst.
  rewrite (final_leb_keys _ _ (Updates.src u) (Updates.src v)); auto.
Qed.

(** The final [ORDER BY] finds the rows in order already: they come out
    of the windows student after student, each by [created_at]. *)
Lemma table_rows (env : run) (raw : list Raw.row) :
  table env raw
  = select_rows env 0
      (map (changed_record LOWER (CURRENT_DATE env))
         (filter is_changed (scan None 0 (staged_rows raw)))).
Proof.
  unfold table, dim_students, changed_records, student_updates.
  apply ORDER_BY_of_sorted. apply select_rows_sorted.
  apply StronglySorted_Sorted.
  assert (H : in_window_order
                (map Updates.src (scan None 0 (staged_rows raw)))).
  { rewrite scan_src. apply ORDER_BY_window. }
  revert H. generalize (scan None 0 (staged_rows raw)).
  intros us. induction us as [|u tl IH]; simpl; intros H; [constructor|].
  inversion H as [|? ? Hs Hall]; subst.
  destruct (is_changed u); simpl; [|apply IH; exact Hs].
  constructor; [apply IH; exact Hs|].
  rewrite Forall_forall in *. intros y Hy. apply in_map_iff in Hy.
  destruct Hy as (v & <- & Hv). apply filter_In in Hv.
  apply Hall. apply in_map. tauto.
Qed.

Lemma table_sorted (env : run) (raw : list Raw.row) :
  Sorted (fun a b => final_leb a b = true) (table env raw).
Proof.
  unfold table, dim_students. apply ORDER_BY_sorted.
  intros a b. unfold final_leb, opt_Z_eqb, asc_leb.
  destruct (Dim.student_id a) as [i|], (Dim.student_id b) as [j|];
    try (rewrite (Z.eqb_sym j i)); try destruct (i =? j) eqn:E; auto;
    rewrite ?Z.leb_le; try lia; apply Z.eqb_neq in E; lia.
Qed.

(** C10 (as amended).  The table has one row at most for a student and
    an update timestamp: the pairs (student_id, effective_from) of its
    rows are pairwise distinct.  (Which of several source rows with the
    same student and timestamp supplies the row is left to the order in
    which the engine presents them: [ROW_NUMBER] orders them by the
    timestamp they share.) *)
Theorem one_row_per_student_and_timestamp (env : run) (raw : list Raw.row) :
  NoDup (map natural_key (table env raw)).
Proof.
  rewrite table_rows, select_rows_keys.
  unfold is_changed. rewrite filter_and.
  apply NoDup_map_filter. apply scan_versions_NoDup. apply ORDER_BY_window.
Qed.






End Model.

(** *** Worked inputs *)

Import Examples.

(** C2.  The feed repeats the attributes of student 1 on 2024-06-01: the
    table has a single row for the student, closed on 2024-05-31
    23:59:59 and not current; no row of the student is current, and from
    2024-06-01 on no row is in effect. *)
Theorem repeated_attributes_leave_no_current_row :
  map (fun d => (Dim.student_id d, Dim.effective_from d, Dim.effective_to d,
                 Dim.is_current d))
    (build_dim run_a feed_repeat)
  = [(Some 1, midnight 2024 1 1, TIMESTAMP (mk_date 2024 5 31) 23 59 59, false)]
  /\ filter Dim.is_current (build_dim run_a feed_repeat) = [].
Proof. vm_compute. split; reflexivity. Qed.



(** C10, refuted as stated: the same two rows, presented in the two
    possible orders, leave different survivors, in both cases the row
    presented first. *)
Lemma survivor_depends_on_presentation :
  Permutation feed_tie feed_tie_reversed /\
  map Dim.district (build_dim run_a feed_tie) = [Some "A"%string] /\
  map Dim.district (build_dim run_a feed_tie_reversed) = [Some "B"%string].
Proof.
  split; [apply Permutation_rev|]. vm_compute. split; reflexivity.
Qed.



End DimStudentsFacts.

(* ------------------------------------------------------------------ *)
(** ** facts/fct_assessment_results *)

Module FctAssessmentResultsFacts.

Import Sql Calendar SqlFacts FctAssessmentResults.

Section Run.

Variable generate_surrogate_key : option Z -> option timestamp -> string.
Variable env : run.
Variable mode : load.
Variable db : sources.

Let output := fct_assessment_results generate_surrogate_key env mode db.
Let enriched := enriched_results generate_surrogate_key env mode db.
Let input := filter (staged env mode) (stg_assessment_results db).

Lemma In_output (f : Fact.row) :
  In f output <->
  In f (FIRST_ROWS same_fact newer_fact (filter (not_loaded env mode) enriched)).
Proof. apply ORDER_BY_In. Qed.

(** The current rows of a dimension that a key resolves to. *)
Lemma In_student_info (s : StudentInfo.row) :
  In s (student_info db) ->
  exists d, In d (dim_students db) /\ DimStudents.Dim.is_current d = true /\
    StudentInfo.student_id s = DimStudents.Dim.student_id d /\
    StudentInfo.student_name s = DimStudents.Dim.full_name d /\
    StudentInfo.student_gender s = DimStudents.Dim.gender d /\
    StudentInfo.student_age_group s = DimStudents.Dim.age_group d /\
    StudentInfo.socioeconomic_status s = DimStudents.Dim.socioeconomic_status d /\
    StudentInfo.has_disability s = DimStudents.Dim.has_disability d.
Proof.
  unfold student_info. rewrite in_map_iff. intros (d & <- & Hd).
  apply filter_In in Hd. exists d. simpl. tauto.
Qed.

Lemma student_info_of (d : DimStudents.Dim.row) :
  In d (dim_students db) -> DimStudents.Dim.is_current d = true ->
  exists s, In s (student_info db) /\
    StudentInfo.student_id s = DimStudents.Dim.student_id d.
Proof.
  intros Hd Hc. eexists. split.
  - unfold student_info. apply in_map_iff. exists d. split; [reflexivity|].
    apply filter_In. auto.
  - reflexivity.
Qed.

(** Every row of [enriched_results] is the newest staged version of its
    result, joined to what the dimensions currently hold. *)
Lemma In_enriched (f : Fact.row) :
  In f enriched <->
  exists ar si ti sch sub,
    f = enrich generate_surrogate_key env ar si ti sch sub /\
    In ar (FIRST_ROWS same_result newer input) /\
    match si with
    | Some s => In s (student_info db) /\
                join_eq (Stg.student_id ar) (StudentInfo.student_id s) = true
    | None => forall s, In s (student_info db) ->
                join_eq (Stg.student_id ar) (StudentInfo.student_id s) = false
    end /\
    match ti with
    | Some t => In t (teacher_info db) /\
                join_eq (Stg.teacher_id ar) (Teacher.teacher_id t) = true
    | None => forall t, In t (teacher_info db) ->
                join_eq (Stg.teacher_id ar) (Teacher.teacher_id t) = false
    end /\
    match sch with
    | Some c => In c (school_info db) /\
                join_eq (Stg.school_id ar) (School.school_id c) = true
    | None => forall c, In c (school_info db) ->
                join_eq (Stg.school_id ar) (School.school_id c) = false
    end /\
    match sub with
    | Some b => In b (dim_subjects db) /\
                join_eq (Stg.subject_id ar) (Subject.subject_id b) = true
    | None => forall b, In b (dim_subjects db) ->
                join_eq (Stg.subject_id ar) (Subject.subject_id b) = false
    end.
Proof.
  unfold enriched, enriched_results. rewrite in_map_iff. split.
  - intros ([[[[[ar n] si] ti] sch] sub] & <- & Hin).
    apply filter_In in Hin. destruct Hin as (Hin & Hn). simpl in Hn.
    apply Nat.eqb_eq in Hn. subst n.
    unfold joined in Hin.
    apply In_LEFT_JOIN in Hin. destruct Hin as (Hin & Hsub).
    apply In_LEFT_JOIN in Hin. destruct Hin as (Hin & Hsch).
    apply In_LEFT_JOIN in Hin. destruct Hin as (Hin & Hti).
    apply In_LEFT_JOIN in Hin. destruct Hin as (Hin & Hsi).
    exists ar, si, ti, sch, sub. simpl in *.
    split; [reflexivity|]. split; [|tauto].
    apply In_firsts. exact Hin.
  - intros (ar & si & ti & sch & sub & -> & Har & Hsi & Hti & Hsch & Hsub).
    exists (ar, 1%nat, si, ti, sch, sub). split; [reflexivity|].
    apply filter_In. split; [|reflexivity].
    unfold joined.
    apply In_LEFT_JOIN. split; [|exact Hsub].
    apply In_LEFT_JOIN. split; [|exact Hsch].
    apply In_LEFT_JOIN. split; [|exact Hti].
    apply In_LEFT_JOIN. split; [|exact Hsi].
    apply In_firsts. exact Har.
Qed.

(** Whatever the dimensions hold, the newest version of a staged result
    reaches [enriched_results]. *)
Lemma enriched_keeps (ar : Stg.row) :
  In ar (FIRST_ROWS same_result newer input) ->
  exists si ti sch sub,
    In (enrich generate_surrogate_key env ar si ti sch sub) enriched.
Proof.
  intros Har. apply In_firsts in Har.
  destruct (LEFT_JOIN_keeps
              (fun ar si => join_eq (Stg.student_id (fst ar)) (StudentInfo.student_id si))
              (ar, 1%nat) _ (student_info db) Har) as (si & H1).
  destruct (LEFT_JOIN_keeps
              (fun x ti => join_eq (Stg.teacher_id (fst (fst x))) (Teacher.teacher_id ti))
              _ _ (teacher_info db) H1) as (ti & H2).
  destruct (LEFT_JOIN_keeps
              (fun x sch => join_eq (Stg.school_id (fst (fst (fst x)))) (School.school_id sch))
              _ _ (school_info db) H2) as (sch & H3).
  destruct (LEFT_JOIN_keeps
              (fun x sub => join_eq (Stg.subject_id (fst (fst (fst (fst x)))))
                              (Subject.subject_id sub))
              _ _ (dim_subjects db) H3) as (sub & H4).
  exists si, ti, sch, sub.
  unfold enriched, enriched_results. apply in_map_iff.
  exists (ar, 1%nat, si, ti, sch, sub). split; [reflexivity|].
  apply filter_In. split; [exact H4 | reflexivity].
Qed.

Lemma output_enriched (f : Fact.row) : In f output -> In f enriched.
Proof.
  intros Hf. apply In_output in Hf.
  apply (first_is_latest Fact.assessment_result_id Fact.recorded_at) in Hf.
  destruct Hf as (Hf & _). apply filter_In in Hf. tauto.
Qed.


(** The student columns of an emitted row: those of a current row of
    [dim_students] with the row's [student_id], or NULLs when no current
    row has it.  The assessment date plays no part. *)
Lemma student_resolution (f : Fact.row) :
  In f output ->
  (exists d, In d (dim_students db) /\ DimStudents.Dim.is_current d = true /\
     join_eq (Fact.student_id f) (DimStudents.Dim.student_id d) = true /\
     Fact.student_name f = DimStudents.Dim.full_name d /\
     Fact.student_gender f = Some (DimStudents.Dim.gender d) /\
     Fact.student_age_group f = Some (DimStudents.Dim.age_group d) /\
     Fact.socioeconomic_status f = DimStudents.Dim.socioeconomic_status d /\
     Fact.has_disability f = Some (DimStudents.Dim.has_disability d))
  \/
  ((forall d, In d (dim_students db) -> DimStudents.Dim.is_current d = true ->
      join_eq (Fact.student_id f) (DimStudents.Dim.student_id d) = false) /\
   Fact.student_name f = None /\ Fact.student_gender f = None /\
   Fact.student_age_group f = None /\ Fact.socioeconomic_status f = None /\
   Fact.has_disability f = None).
Proof.
  intros Hf. apply output_enriched, In_enriched in Hf.
  destruct Hf as (ar & si & ti & sch & sub & -> & _ & Hsi & _).
  destruct si as [s|]; simpl.
  - left. destruct Hsi as (Hs & Hon).
    apply In_student_info in Hs.
    destruct Hs as (d & Hd & Hc & E1 & E2 & E3 & E4 & E5 & E6).
    exists d. rewrite <- E1, <- E2, <- E3, <- E4, <- E5, <- E6. tauto.
  - right. split; [|tauto]. intros d Hd Hc.
    destruct (student_info_of d Hd Hc) as (s & Hs & E). rewrite <- E.
    apply Hsi. exact Hs.
Qed.

Lemma teacher_resolution (f : Fact.row) :
  In f output ->
  (exists t, In t (dim_teachers db) /\ Teacher.is_current t = true /\
     join_eq (Fact.teacher_id f) (Teacher.teacher_id t) = true /\
     Fact.teacher_name f = Teacher.full_name t /\
     Fact.subject_specialization f = Teacher.subject_specialization t /\
     Fact.years_of_experience f = Teacher.years_of_experience t)
  \/
  ((forall t, In t (dim_teachers db) -> Teacher.is_current t = true ->
      join_eq (Fact.teacher_id f) (Teacher.teacher_id t) = false) /\
   Fact.teacher_name f = None /\ Fact.subject_specialization f = None /\
   Fact.years_of_experience f = None).
Proof.
  intros Hf. apply output_enriched, In_enriched in Hf.
  destruct Hf as (ar & si & ti & sch & sub & -> & _ & _ & Hti & _).
  destruct ti as [t|]; simpl.
  - left. destruct Hti as (Ht & Hon). apply filter_In in Ht.
    exists t. tauto.
  - right. split; [|tauto]. intros t Ht Hc. apply Hti.
    apply filter_In. auto.
Qed.

Lemma school_resolution (f : Fact.row) :
  In f output ->
  (exists c, In c (dim_schools db) /\ School.is_current c = true /\
     join_eq (Fact.school_id f) (School.school_id c) = true /\
     Fact.school_name f = School.school_name c /\
     Fact.school_type f = School.school_type c /\
     Fact.education_level f = School.education_level c /\
     Fact.is_rural f = School.is_rural c)
  \/
  ((forall c, In c (dim_schools db) -> School.is_current c = true ->
      join_eq (Fact.school_id f) (School.school_id c) = false) /\
   Fact.school_name f = None /\ Fact.school_type f = None /\
   Fact.education_level f = None /\ Fact.is_rural f = None).
Proof.
  intros Hf. apply output_enriched, In_enriched in Hf.
  destruct Hf as (ar & si & ti & sch & sub & -> & _ & _ & _ & Hsch & _).
  destruct sch as [c|]; simpl.
  - left. destruct Hsch as (Hc & Hon). apply filter_In in Hc.
    exists c. tauto.
  - right. split; [|tauto]. intros c Hc Hcur. apply Hsch.
    apply filter_In. auto.
Qed.

(** The newest staged version of a result is emitted, with whatever the
    joins found for it, unless the incremental load finds the result
    already in the table. *)
Lemma newest_version_emitted (ar : Stg.row) :
  In ar (FIRST_ROWS same_result newer input) ->
  (forall f, Fact.assessment_result_id f = Stg.assessment_result_id ar ->
             not_loaded env mode f = true) ->
  exists si ti sch sub,
    In (enrich generate_surrogate_key env ar si ti sch sub) output.
Proof.
  intros Har Hnew.
  destruct (enriched_keeps ar Har) as (si & ti & sch & sub & Hf0).
  set (f0 := enrich generate_surrogate_key env ar si ti sch sub) in *.
  assert (Hin0 : In f0 (filter (not_loaded env mode) enriched)).
  { apply filter_In. split; [exact Hf0|]. apply Hnew. reflexivity. }
  destruct (firsts_exists Fact.assessment_result_id Fact.recorded_at _ _ Hin0)
    as (f1 & Hf1 & Hid).
  assert (Hout : In f1 output) by (apply In_output; exact Hf1).
  assert (He := Hout). apply output_enriched, In_enriched in He.
  destruct He as (ar' & si' & ti' & sch' & sub' & E & Har' & _).
  assert (ar' = ar).
  { apply (NoDup_map_eq Stg.assessment_result_id
             (FIRST_ROWS same_result newer input)); auto.
    - apply (firsts_NoDup Stg.assessment_result_id Stg.recorded_at).
    - rewrite E in Hid. exact Hid. }
  subst ar'. exists si', ti', sch', sub'. rewrite <- E. exact Hout.
Qed.

End Run.

Section Claims.

Variable generate_surrogate_key : option Z -> option timestamp -> string.
Variable env : run.
Variable mode : load.
Variable db : sources.

Let output := fct_assessment_results generate_surrogate_key env mode db.


(** C1 (as amended).  Every dimension an emitted row refers to (student,
    teacher, school) is resolved to a row of the dimension that has the
    row's business key and [is_current = TRUE], or to NULLs when there is
    none; the effective interval and the assessment date are not
    consulted.  A fact dated before an attribute change therefore
    carries the attributes as they are after it. *)
Theorem dimensions_resolve_to_current_rows (f : Fact.row) :
  In f output ->
  ((exists d, In d (dim_students db) /\ DimStudents.Dim.is_current d = true /\
      join_eq (Fact.student_id f) (DimStudents.Dim.student_id d) = true /\
      Fact.student_name f = DimStudents.Dim.full_name d /\
      Fact.student_gender f = Some (DimStudents.Dim.gender d) /\
      Fact.student_age_group f = Some (DimStudents.Dim.age_group d) /\
      Fact.socioeconomic_status f = DimStudents.Dim.socioeconomic_status d /\
      Fact.has_disability f = Some (DimStudents.Dim.has_disability d))
   \/
   ((forall d, In d (dim_students db) -> DimStudents.Dim.is_current d = true ->
       join_eq (Fact.student_id f) (DimStudents.Dim.student_id d) = false) /\
    Fact.student_name f = None /\ Fact.student_gender f = None /\
    Fact.student_age_group f = None /\ Fact.socioeconomic_status f = None /\
    Fact.has_disability f = None))
  /\
  ((exists t, In t (dim_teachers db) /\ Teacher.is_current t = true /\
      join_eq (Fact.teacher_id f) (Teacher.teacher_id t) = true /\
      Fact.teacher_name f = Teacher.full_name t /\
      Fact.subject_specialization f = Teacher.subject_specialization t /\
      Fact.years_of_experience f = Teacher.years_of_experience t)
   \/
   ((forall t, In t (dim_teachers db) -> Teacher.is_current t = true ->
       join_eq (Fact.teacher_id f) (Teacher.teacher_id t) = false) /\
    Fact.teacher_name f = None /\ Fact.subject_specialization f = None /\
    Fact.years_of_experience f = None))
  /\
  ((exists c, In c (dim_schools db) /\ School.is_current c = true /\
      join_eq (Fact.school_id f) (School.school_id c) = true /\
      Fact.school_name f = School.school_name c /\
      Fact.school_type f = School.school_type c /\
      Fact.education_level f = School.education_level c /\
      Fact.is_rural f = School.is_rural c)
   \/
   ((forall c, In c (dim_schools db) -> School.is_current c = true ->
       join_eq (Fact.school_id f) (School.school_id c) = false) /\
    Fact.school_name f = None /\ Fact.school_type f = None /\
    Fact.education_level f = None /\ Fact.is_rural f = None)).
Proof.
  intros Hf. split; [|split].
  - exact (student_resolution generate_surrogate_key env mode db f Hf).
  - exact (teacher_resolution generate_surrogate_key env mode db f Hf).
  - exact (school_resolution generate_surrogate_key env mode db f Hf).
Qed.


End Claims.

(** *** The derived measures *)

Lemma normalized_score_out_of_one (marks : option Q) (max : Q) :
  (max == 1)%Q -> normalized_score_of marks (Some max) = None.
Proof.
  intros H. unfold normalized_score_of, NULLIF.
  apply Qeq_bool_iff in H. rewrite H. destruct marks; reflexivity.
Qed.

Lemma normalized_score_ratio (marks max : Q) :
  ~ (max == 0)%Q -> ~ (max == 1)%Q ->
  normalized_score_of (Some marks) (Some max) = Some (marks / max)%Q.
Proof.
  intros H0 H1. unfold normalized_score_of, NULLIF, SAFE_DIVIDE.
  destruct (Qeq_bool max 1) eqn:E1; [apply Qeq_bool_iff in E1; contradiction|].
  destruct (Qeq_bool max 0) eqn:E0; [apply Qeq_bool_iff in E0; contradiction|].
  reflexivity.
Qed.

Lemma ratio_in_unit_interval (marks max : Q) :
  (0 <= marks)%Q -> (marks <= max)%Q -> (0 < max)%Q ->
  (0 <= marks / max)%Q /\ (marks / max <= 1)%Q.
Proof.
  intros Hm Hle Hpos. split.
  - apply Qle_shift_div_l; [exact Hpos|]. rewrite Qmult_0_l. exact Hm.
  - apply Qle_shift_div_r; [exact Hpos|]. rewrite Qmult_1_l. exact Hle.
Qed.

Lemma calculated_percentage_ratio (marks max : Q) :
  ~ (max == 0)%Q ->
  calculated_percentage_of (Some marks) (Some max) = Some (marks / max * 100)%Q.
Proof.
  intros H0. unfold calculated_percentage_of, NULLIF, SAFE_DIVIDE.
  destruct (Qeq_bool max 0) eqn:E0; [apply Qeq_bool_iff in E0; contradiction|].
  simpl. rewrite E0. reflexivity.
Qed.

Lemma is_passed_indicator_spec (p : option Q) :
  is_passed_indicator_of p = 1 <-> exists v, p = Some v /\ (33 <= v)%Q.
Proof.
  unfold is_passed_indicator_of, at_least. destruct p as [v|]; simpl.
  - destruct (Qle_bool 33 v) eqn:E; split.
    + intros _. exists v. split; [reflexivity|]. apply Qle_bool_iff. exact E.
    + reflexivity.
    + discriminate.
    + intros (v' & Hv & Hle). inversion Hv; subst v'.
      apply Qle_bool_iff in Hle. congruence.
  - split; [discriminate|]. intros (v & Hv & _). discriminate.
Qed.

Lemma is_passed_indicator_values (p : option Q) :
  is_passed_indicator_of p = 1 \/ is_passed_indicator_of p = 0.
Proof. unfold is_passed_indicator_of. destruct (at_least p 33); auto. Qed.

Lemma standardized_grade_breakpoints (v : Q) :
  standardized_grade_of (Some v) =
  (if Qle_bool 80 v then "A+" else if Qle_bool 70 v then "A"
   else if Qle_bool 60 v then "A-" else if Qle_bool 50 v then "B"
   else if Qle_bool 40 v then "C" else if Qle_bool 33 v then "D"
   else "F")%string.
Proof.
  unfold standardized_grade_of, at_least. simpl.
  repeat (destruct (Qle_bool _ v); try reflexivity).
Qed.

Lemma derived_measures_of_row generate_surrogate_key env ar si ti sch sub :
  let f := enrich generate_surrogate_key env ar si ti sch sub in
  Fact.normalized_score f =
    normalized_score_of (Stg.marks_obtained ar) (Stg.max_marks ar) /\
  Fact.is_passed_indicator f = is_passed_indicator_of (Stg.percentage ar) /\
  Fact.standardized_grade f = standardized_grade_of (Stg.percentage ar) /\
  Fact.marks_obtained f = Stg.marks_obtained ar /\
  Fact.max_marks f = Stg.max_marks ar /\
  Fact.percentage f = Stg.percentage ar.
Proof. simpl. tauto. Qed.

(** *** Worked inputs *)

Import Examples.

(** C9.  A result marked out of one (1 of 1): [max_marks] is positive, yet
    the emitted row has no normalized score, where [marks_obtained /
    max_marks] is 1; the percentage computed next to it, whose divisor is
    guarded against zero, is 100. *)
Theorem quiz_out_of_one_has_no_normalized_score :
  map (fun f => (Fact.marks_obtained f, Fact.max_marks f,
                 Fact.normalized_score f, Fact.calculated_percentage f))
    (build_fact quiz_out_of_one)
  = [(Some 1%Q, Some 1%Q, None, Some 100%Q)].
Proof. vm_compute. reflexivity. Qed.

(** C1, refuted as stated: the exam of 2024-03-10 predates the move of
    2024-06-01; the dimension row in effect on that day says [Low], the
    fact row says [High], as the current row does. *)
Lemma fact_before_move_carries_current_attributes :
  map DimStudents.Dim.socioeconomic_status
    (filter (fun d => (DimStudents.Dim.effective_from d <=? midnight 2024 3 10)
                      && (midnight 2024 3 10 <=? DimStudents.Dim.effective_to d))
       (build_dim run_a feed_move))
  = [Some "Low"%string] /\
  map (fun f => (Fact.assessment_date f, Fact.socioeconomic_status f))
    (build_fact exam_before_move)
  = [(Some (mk_date 2024 3 10), Some "High"%string)].
Proof. vm_compute. split; reflexivity. Qed.


Lemma hd_error_In {A} (l : list A) (x : A) : hd_error l = Some x -> In x l.
Proof. destruct l; simpl; intros H; [discriminate | inversion H; auto]. Qed.

(** The exam sat before the move: its row is resolved against a current
    row of the dimension built from [feed_move]. *)
Lemma dimensions_resolve_to_current_rows_witness :
  exists f,
    hd_error (build_fact exam_before_move) = Some f /\
    exists d, In d (build_dim run_a feed_move) /\
      DimStudents.Dim.is_current d = true /\
      join_eq (Fact.student_id f) (DimStudents.Dim.student_id d) = true /\
      Fact.socioeconomic_status f = DimStudents.Dim.socioeconomic_status d.
Proof.
  assert (Hhd : exists f, hd_error (build_fact exam_before_move) = Some f
                          /\ Fact.student_id f = Some 1).
  { vm_compute. eexists. split; reflexivity. }
  destruct Hhd as (f & Hhd & Hid). exists f. split; [exact Hhd|].
  pose proof (hd_error_In _ _ Hhd) as Hin. unfold build_fact in Hin.
  pose proof (dimensions_resolve_to_current_rows surrogate_key run_a FullRefresh
                (warehouse exam_before_move) f Hin) as (Hs & _).
  destruct Hs as [(d & Hd & Hc & Hj & _ & _ & _ & Hses & _) | (Hnone & _)].
  - exists d.
    split; [exact Hd | split; [exact Hc | split; [exact Hj | exact Hses]]].
  - exfalso.
    assert (Hex : existsb (fun d => DimStudents.Dim.is_current d
                             && join_eq (Some 1) (DimStudents.Dim.student_id d))
                    (build_dim run_a feed_move) = true)
      by (vm_compute; reflexivity).
    apply existsb_exists in Hex. destruct Hex as (d & Hd & Hb).
    apply andb_true_iff in Hb. destruct Hb as (Hc & Hj).
    rewrite Hid in Hnone. rewrite (Hnone d Hd Hc) in Hj. discriminate.
Defined.



End FctAssessmentResultsFacts.

(* ------------------------------------------------------------------ *)
(** ** marts/equity/equity_metrics *)

Module EquityMetricsFacts.

Import Sql Calendar SqlFacts EquityMetrics.

(** *** Rounding *)




(** *** Groups *)

Lemma key_eqb_eq (a b : group_key) : key_eqb a b = true <-> a = b.
Proof.
  unfold key_eqb. destruct (key_eq_dec a b); split; intros H;
    try reflexivity; try assumption; try discriminate; contradiction.
Qed.

Lemma In_distinct (k : group_key) (ks : list group_key) :
  In k (distinct ks) <-> In k ks.
Proof.
  induction ks as [|x tl IH]; simpl; [tauto|].
  rewrite filter_In, IH. split.
  - intros [H | (H & _)]; auto.
  - intros [H | H]; auto.
    destruct (key_eq_dec x k) as [E|E]; [left; exact E | right].
    split; [exact H|]. unfold key_eqb.
    destruct (key_eq_dec x k); [contradiction | reflexivity].
Qed.

Lemma distinct_NoDup (ks : list group_key) : NoDup (distinct ks).
Proof.
  induction ks as [|x tl IH]; simpl; constructor.
  - intros H. apply filter_In in H. destruct H as (_ & H).
    unfold key_eqb in H. destruct (key_eq_dec x x); [discriminate H | congruence].
  - apply NoDup_filter. exact IH.
Qed.

Lemma analysis_keys (ms : list Metric.row) :
  map Analysis.key (equity_analysis ms) = distinct (map key_of ms).
Proof.
  unfold equity_analysis. rewrite map_map. simpl. apply map_id.
Qed.

Lemma In_equity_analysis (a : Analysis.row) (ms : list Metric.row) :
  In a (equity_analysis ms) ->
  exists m tl, filter (fun m => key_eqb (Analysis.key a) (key_of m)) ms = m :: tl /\
    a = analyse (Analysis.key a) (m :: tl).
Proof.
  unfold equity_analysis. rewrite in_map_iff. intros (k & <- & Hk).
  simpl. apply In_distinct, in_map_iff in Hk. destruct Hk as (m0 & Hm0 & Hin).
  destruct (filter (fun m => key_eqb k (key_of m)) ms) as [|m tl] eqn:E.
  - exfalso. assert (H : In m0 (filter (fun m => key_eqb k (key_of m)) ms)).
    { apply filter_In. split; [exact Hin|]. apply key_eqb_eq. auto. }
    rewrite E in H. destruct H.
  - exists m, tl. split; reflexivity.
Qed.

(** A sum of counts over a group is never NULL: a group has a row. *)
Lemma SUM_Z_acc (f : Metric.row -> Z) (ms : list Metric.row) (acc : Z) :
  exists v, fold_left (fun acc x =>
                match x with
                | None => acc
                | Some v => Some (match acc with Some a => a + v | None => v end)
                end) (map (fun m => Some (f m)) ms) (Some acc) = Some v.
Proof.
  revert acc. induction ms as [|m tl IH]; intros acc; simpl.
  - exists acc. reflexivity.
  - apply IH.
Qed.

Lemma count_where_some (c : Metric.row -> bool) (m : Metric.row) (tl : list Metric.row) :
  exists v, count_where c (m :: tl) = Some v.
Proof.
  unfold count_where, SUM_Z.
  rewrite (map_ext _ (fun m => Some (if c m then Grouped.student_count (Metric.src m) else 0)))
    by (intros x; destruct (c x); reflexivity).
  simpl. apply SUM_Z_acc.
Qed.

Lemma total_some (m : Metric.row) (tl : list Metric.row) :
  exists v, SUM_Z (map (fun m => Some (Grouped.student_count (Metric.src m))) (m :: tl)) = Some v.
Proof. unfold SUM_Z. simpl. apply SUM_Z_acc. Qed.

Lemma In_select_rows (env : run) (n : nat) (l : list Analysis.row) (m : Mart.row) :
  In m (select_rows env n l) -> exists a k, In a l /\ m = select_row env k a.
Proof.
  revert n. induction l as [|a tl IH]; intros n; simpl; [intros []|].
  intros [<- | H].
  - exists a, n. auto.
  - destruct (IH _ H) as (a' & k & Ha & E). exists a', k. auto.
Qed.

Lemma In_equity_metrics (env : run) (gs : list Grouped.row) (m : Mart.row) :
  In m (equity_metrics env gs) ->
  exists a k, In a (equity_analysis (student_metrics gs)) /\
    sufficient a = true /\ m = select_row env k a.
Proof.
  unfold equity_metrics. intros H. apply In_select_rows in H.
  destruct H as (a & k & Ha & E). apply filter_In in Ha. exists a, k. tauto.
Qed.

Lemma sufficient_counts (a : Analysis.row) (t f b l w r : Z) :
  Analysis.total_students a = Some t -> Analysis.female_count a = Some f ->
  Analysis.male_count a = Some b -> Analysis.low_income_count a = Some l ->
  Analysis.with_disability_count a = Some w -> Analysis.rural_count a = Some r ->
  sufficient a = true <->
  10 <= t /\ 5 <= f /\ 5 <= b /\ 5 <= l /\ 3 <= w /\ (5 <= r \/ r = 0).
Proof.
  intros Ht Hf Hb Hl Hw Hr. unfold sufficient, at_least.
  rewrite Ht, Hf, Hb, Hl, Hw, Hr. simpl.
  destruct (10 <=? t) eqn:E1; destruct (5 <=? f) eqn:E2;
    destruct (5 <=? b) eqn:E3; destruct (5 <=? l) eqn:E4;
    destruct (3 <=? w) eqn:E5; destruct (5 <=? r) eqn:E6;
    destruct (r =? 0) eqn:E7; simpl;
    rewrite ?Z.leb_le, ?Z.leb_gt, ?Z.eqb_eq, ?Z.eqb_neq in *;
    split; intros H; try discriminate; try reflexivity; try lia.
Qed.

Lemma analysis_counts (a : Analysis.row) (ms : list Metric.row) :
  In a (equity_analysis ms) ->
  exists t f b l w r,
    Analysis.total_students a = Some t /\ Analysis.female_count a = Some f /\
    Analysis.male_count a = Some b /\ Analysis.low_income_count a = Some l /\
    Analysis.with_disability_count a = Some w /\ Analysis.rural_count a = Some r.
Proof.
  intros Ha. apply In_equity_analysis in Ha. destruct Ha as (m & tl & _ & ->).
  destruct (total_some m tl) as (t & Ht).
  destruct (count_where_some female m tl) as (f & Hf).
  destruct (count_where_some male m tl) as (b & Hb).
  destruct (count_where_some (flag Metric.is_low_income 1) m tl) as (l & Hl).
  destruct (count_where_some (flag Metric.has_disability_flag 1) m tl) as (w & Hw).
  destruct (count_where_some (flag Metric.is_rural_area 1) m tl) as (r & Hr).
  exists t, f, b, l, w, r. cbn [analyse Analysis.total_students Analysis.female_count
    Analysis.male_count Analysis.low_income_count Analysis.with_disability_count
    Analysis.rural_count]. auto 10.
Qed.



(** *** Worked inputs *)

Import Examples.





End EquityMetricsFacts.

(* ------------------------------------------------------------------ *)
(** ** Further invariants of [dim_students] *)

Module DimStudentsInvariants.

Import Sql Calendar SqlFacts DimStudents DimStudentsFacts.

(** *** Lists *)


Lemma filter_split {A} (p : A -> bool) (l : list A) (pre : list A) (x : A)
  (post : list A) :
  filter p l = pre ++ x :: post ->
  exists l1 l2, l = l1 ++ x :: l2 /\ pre = filter p l1 /\ post = filter p l2.
Proof.
  revert pre. induction l as [|a tl IH]; simpl; intros pre H.
  - destruct pre; discriminate H.
  - destruct (p a) eqn:Ha.
    + destruct pre as [|b pre']; simpl in H; inversion H; subst.
      * exists [], tl. auto.
      * destruct (IH _ H2) as (l1 & l2 & -> & -> & ->).
        exists (b :: l1), l2. simpl. rewrite Ha. auto.
    + destruct (IH _ H) as (l1 & l2 & -> & -> & ->).
      exists (a :: l1), l2. simpl. rewrite Ha. auto.
Qed.

Lemma Permutation_filter {A} (p : A -> bool) (l l' : list A) :
  Permutation l l' -> Permutation (filter p l) (filter p l').
Proof.
  induction 1 as [|x l l' H IH|x y l|l l' l'' H1 IH1 H2 IH2]; simpl.
  - constructor.
  - destruct (p x); [constructor|]; exact IH.
  - destruct (p x), (p y); try apply Permutation_refl. apply perm_swap.
  - eapply Permutation_trans; eassumption.
Qed.

(** A list has one arrangement at most that is in order, when no two of
    its members tie. *)
Lemma sorted_arrangement_unique {A} (le : A -> A -> Prop) (l1 l2 : list A) :
  StronglySorted le l1 -> StronglySorted le l2 -> Permutation l1 l2 ->
  (forall x y, In x l1 -> In y l1 -> le x y -> le y x -> x = y) ->
  l1 = l2.
Proof.
  revert l2. induction l1 as [|a t1 IH]; intros l2 H1 H2 Hp Hanti.
  - apply Permutation_nil in Hp. auto.
  - destruct l2 as [|b t2]; [apply Permutation_sym, Permutation_nil in Hp; discriminate|].
    inversion H1 as [|? ? Hs1 Hall1]; subst.
    inversion H2 as [|? ? Hs2 Hall2]; subst.
    rewrite Forall_forall in Hall1, Hall2.
    assert (a = b).
    { assert (Ha : In a (b :: t2)) by (eapply Permutation_in; [exact Hp | left; reflexivity]).
      assert (Hb : In b (a :: t1))
        by (eapply Permutation_in; [apply Permutation_sym; exact Hp | left; reflexivity]).
      destruct Ha as [Ha|Ha]; [auto|]. destruct Hb as [Hb|Hb]; [auto|].
      apply Hanti; [left; reflexivity | right; exact Hb | apply Hall1; exact Hb
                   | apply Hall2; exact Ha]. }
    subst b. f_equal. apply IH; auto.
    + eapply Permutation_cons_inv. exact Hp.
    + intros x y Hx Hy. apply Hanti; right; assumption.
Qed.

(** *** The window order, again *)

Lemma same_student_eq (a b : Raw.row) :
  same_student a b = true <-> Raw.student_id a = Raw.student_id b.
Proof. apply opt_Z_eqb_eq. Qed.

Lemma window_leb_same_student (a b : Raw.row) :
  same_student a b = true ->
  window_leb a b = true <-> Raw.created_at a <= Raw.created_at b.
Proof. intros H. unfold window_leb. rewrite H. apply Z.leb_le. Qed.

Lemma window_leb_between (a x b : Raw.row) :
  window_leb a x = true -> window_leb x b = true ->
  same_student a b = true -> same_student a x = true /\ same_student x b = true.
Proof.
  unfold window_leb, same_student, opt_Z_eqb, asc_leb.
  destruct (Raw.student_id a) as [i|], (Raw.student_id x) as [j|],
    (Raw.student_id b) as [k|]; try discriminate; simpl;
    try (destruct (i =? j) eqn:E1; [apply Z.eqb_eq in E1 | apply Z.eqb_neq in E1]);
    try (destruct (j =? k) eqn:E2; [apply Z.eqb_eq in E2 | apply Z.eqb_neq in E2]);
    try (destruct (i =? k) eqn:E3; [apply Z.eqb_eq in E3 | apply Z.eqb_neq in E3]);
    simpl; rewrite ?Z.leb_le, ?Z.eqb_eq; intros; try discriminate; try lia; auto.
Qed.

Lemma window_leb_antisym (a b : Raw.row) :
  window_leb a b = true -> window_leb b a = true -> version a = version b.
Proof.
  unfold window_leb, same_student, opt_Z_eqb, asc_leb, version.
  destruct (Raw.student_id a) as [i|], (Raw.student_id b) as [j|];
    try discriminate; try (rewrite (Z.eqb_sym j i));
    try (destruct (i =? j) eqn:E1; [apply Z.eqb_eq in E1 | apply Z.eqb_neq in E1]);
    rewrite ?Z.leb_le; intros; try (exfalso; lia); subst; f_equal; lia.
Qed.


Lemma In_two_split {A} (l : list A) (x y : A) :
  In x l -> In y l ->
  x = y \/ (exists l1 l2, l = l1 ++ x :: l2 /\ In y l2)
        \/ (exists l1 l2, l = l1 ++ y :: l2 /\ In x l2).
Proof.
  induction l as [|a tl IH]; intros Hx Hy; [destruct Hx|].
  destruct Hx as [<-|Hx], Hy as [<-|Hy].
  - left. reflexivity.
  - right. left. exists [], tl. auto.
  - right. right. exists [], tl. auto.
  - destruct (IH Hx Hy) as [E | [(l1 & l2 & -> & H) | (l1 & l2 & -> & H)]].
    + left. exact E.
    + right. left. exists (a :: l1), l2. auto.
    + right. right. exists (a :: l1), l2. auto.
Qed.

Section Model.

Variable MD5 : string -> string.
Variable TO_HEX : string -> string.
Variable LOWER : string -> string.

Let scan := window_scan MD5 TO_HEX.
Let table := dim_students MD5 TO_HEX LOWER.
Let staged (raw : list Raw.row) : list Raw.row :=
  ORDER_BY window_leb (filter (fun r => negb (IS_NULL (Raw.student_id r))) raw).
Let emitted (raw : list Raw.row) : list Updates.row :=
  filter is_changed (scan None 0 (staged raw)).

Lemma table_emitted (env : run) (raw : list Raw.row) :
  table env raw
  = select_rows env 0 (map (changed_record LOWER (CURRENT_DATE env)) (emitted raw)).
Proof. apply table_rows. Qed.

Lemma In_scan_src (prev : option Raw.row) (k : nat) (l : list Raw.row)
  (u : Updates.row) :
  In u (scan prev k l) -> In (Updates.src u) l.
Proof.
  intros H. rewrite <- (scan_src MD5 TO_HEX prev k l). apply in_map. exact H.
Qed.

Lemma In_staged (raw : list Raw.row) (r : Raw.row) :
  In r (staged raw) <-> In r raw /\ Raw.student_id r <> None.
Proof.
  unfold staged. rewrite ORDER_BY_In, filter_In.
  destruct (Raw.student_id r); simpl; split; intros (H & H'); split; auto;
    try discriminate; congruence.
Qed.

Lemma select_rows_split (env : run) (cs : list Changed.row) :
  forall (n : nat) (pre : list Dim.row) (d : Dim.row) (post : list Dim.row),
  select_rows env n cs = pre ++ d :: post ->
  exists A c B k, cs = A ++ c :: B /\ d = select_row env k c /\
                  post = select_rows env (S k) B.
Proof.
  induction cs as [|c tl IH]; intros n pre d post H.
  - destruct pre; discriminate H.
  - destruct pre as [|p pre']; simpl in H; inversion H; subst.
    + exists [], c, tl, n. auto.
    + destruct (IH _ _ _ _ H2) as (A & c' & B & k & -> & -> & ->).
      exists (c :: A), c', B, k. auto.
Qed.

Lemma In_dim_rows (env : run) (n : nat) (cs : list Changed.row) (d : Dim.row) :
  In d (select_rows env n cs) -> exists c k, In c cs /\ d = select_row env k c.
Proof.
  revert n. induction cs as [|c tl IH]; intros n; simpl; [intros []|].
  intros [<- | H]; [exists c, n; auto|].
  destruct (IH _ H) as (c' & k & Hc & ->). exists c', k. auto.
Qed.


Lemma In_table (env : run) (raw : list Raw.row) (d : Dim.row) :
  In d (table env raw) ->
  exists u k, In u (emitted raw) /\
    d = select_row env k (changed_record LOWER (CURRENT_DATE env) u).
Proof.
  rewrite table_emitted. intros H. apply In_dim_rows in H.
  destruct H as (c & k & Hc & ->). apply in_map_iff in Hc.
  destruct Hc as (u & <- & Hu). exists u, k. auto.
Qed.

(** X1.  Every row of the table is the snapshot of a source row with a
    student id: it carries that row's id and, unchanged, its name, date
    of birth, place, socioeconomic status, disability status and guardian
    contact, and takes effect at that row's timestamp. *)
Theorem rows_are_source_snapshots (env : run) (raw : list Raw.row) (d : Dim.row) :
  In d (table env raw) ->
  exists r, In r raw /\ Raw.student_id r <> None /\
    Dim.student_id d = Raw.student_id r /\
    Dim.effective_from d = Raw.created_at r /\
    Dim.full_name d = Raw.full_name r /\
    Dim.date_of_birth d = Raw.date_of_birth r /\
    Dim.division d = Raw.division r /\ Dim.district d = Raw.district r /\
    Dim.upazila d = Raw.upazila r /\
    Dim.socioeconomic_status d = Raw.socioeconomic_status r /\
    Dim.disability_status d = Raw.disability_status r /\
    Dim.guardian_contact d = Raw.guardian_contact r.
Proof.
  intros H. apply In_table in H. destruct H as (u & k & Hu & ->).
  apply filter_In in Hu. destruct Hu as (Hu & _).
  apply In_scan_src, In_staged in Hu. destruct Hu as (Hr & Hid).
  exists (Updates.src u). simpl. repeat (split; [assumption || reflexivity|]).
  reflexivity.
Qed.



(** Along the windows a row is linked to what follows it: when a later
    row is of the same student, [LEAD] is not NULL and no later than that
    row's timestamp. *)
Lemma scan_linked (l : list Raw.row) :
  in_window_order l ->
  forall (prev : option Raw.row) (k : nat) (A : list Updates.row)
         (u : Updates.row) (B : list Updates.row) (u' : Updates.row),
  scan prev k l = A ++ u :: B -> In u' B ->
  same_student (Updates.src u) (Updates.src u') = true ->
  exists n, Updates.next_created_at u = Some n /\
            n <= Raw.created_at (Updates.src u').
Proof.
  induction 1 as [|r rest Hs IH Hall]; intros prev k A u B u' Hsplit Hu' Hsame.
  - destruct A; discriminate Hsplit.
  - rewrite Forall_forall in Hall.
    destruct A as [|a A']; simpl in Hsplit; inversion Hsplit; subst; clear Hsplit.
    + apply In_scan_src in Hu'.
      cbn [Updates.src Updates.next_created_at] in *.
      destruct rest as [|x rest']; [destruct Hu'|].
      assert (Hx : same_student r x = true
                   /\ Raw.created_at x <= Raw.created_at (Updates.src u')).
      { destruct Hu' as [E | Hin].
        - rewrite E. split; [exact Hsame | lia].
        - inversion Hs as [|? ? _ Hall']; subst. rewrite Forall_forall in Hall'.
          destruct (window_leb_between r x (Updates.src u')) as (H1 & H2);
            [apply Hall; left; reflexivity | apply Hall'; exact Hin | exact Hsame |].
          split; [exact H1|].
          apply window_leb_same_student; [exact H2 | apply Hall'; exact Hin]. }
      destruct Hx as (Hx1 & Hx2). rewrite Hx1. eauto.
    + eapply IH; eassumption.
Qed.

Lemma table_linked (env : run) (raw : list Raw.row)
  (pre : list Dim.row) (d : Dim.row) (post : list Dim.row) (d' : Dim.row) :
  table env raw = pre ++ d :: post -> In d' post ->
  Dim.student_id d' = Dim.student_id d ->
  Dim.is_current d = false /\ Dim.effective_to d < Dim.effective_from d'.
Proof.
  rewrite table_emitted. intros Hsplit Hd' Hid.
  apply select_rows_split in Hsplit.
  destruct Hsplit as (A & c & B & k & Hcs & -> & ->).
  apply In_dim_rows in Hd'. destruct Hd' as (c' & k' & Hc' & ->).
  apply map_eq_app in Hcs. destruct Hcs as (ua & ub0 & Hem & HA & Hcb).
  destruct ub0 as [|u ub]; [discriminate Hcb|]. simpl in Hcb.
  inversion Hcb as [[Hc HB]]. subst c B. clear Hcb.
  apply in_map_iff in Hc'. destruct Hc' as (u' & <- & Hu').
  unfold emitted in Hem. apply filter_split in Hem.
  destruct Hem as (l1 & l2 & Hscan & _ & Hub). subst ub.
  apply filter_In in Hu'. destruct Hu' as (Hu' & _).
  simpl in Hid.
  destruct (scan_linked (staged raw) (ORDER_BY_window _) None 0 l1 u l2 u' Hscan Hu')
    as (n & Hn & Hle).
  { apply same_student_eq. congruence. }
  simpl. rewrite Hn. simpl. unfold one_second. split; [reflexivity | lia].
Qed.


(** X4.  The versions of a student do not overlap: at any instant one row
    at most of a student is in effect, that is, has the instant between
    its [effective_from] and its [effective_to].  The point-in-time joins
    of the marts ([BETWEEN effective_from AND effective_to]) thus match a
    fact to one version at most. *)
Theorem one_version_in_effect_at_most (env : run) (raw : list Raw.row)
  (d d' : Dim.row) (t : timestamp) :
  In d (table env raw) -> In d' (table env raw) ->
  Dim.student_id d = Dim.student_id d' ->
  Dim.effective_from d <= t <= Dim.effective_to d ->
  Dim.effective_from d' <= t <= Dim.effective_to d' ->
  d = d'.
Proof.
  intros Hd Hd' Hid Ht Ht'.
  destruct (In_two_split _ _ _ Hd Hd')
    as [E | [(l1 & l2 & Hsplit & Hin) | (l1 & l2 & Hsplit & Hin)]].
  - exact E.
  - destruct (table_linked env raw l1 d l2 d' Hsplit Hin (eq_sym Hid)) as (_ & H). lia.
  - destruct (table_linked env raw l1 d' l2 d Hsplit Hin Hid) as (_ & H). lia.
Qed.

(** X5.  Without ties the order of presentation does not matter: when no
    two source rows with a student id share student and timestamp, every
    presentation of the same rows builds the same table. *)
Theorem presentation_is_immaterial_without_ties (env : run)
  (raw raw' : list Raw.row) :
  NoDup (map version (filter (fun r => negb (IS_NULL (Raw.student_id r))) raw)) ->
  Permutation raw raw' ->
  table env raw = table env raw'.
Proof.
  intros Hnd Hperm.
  assert (E : staged raw = staged raw').
  { apply (sorted_arrangement_unique (fun a b => window_leb a b = true)).
    - apply ORDER_BY_window.
    - apply ORDER_BY_window.
    - unfold staged. eapply Permutation_trans; [apply ORDER_BY_perm|].
      eapply Permutation_trans; [|apply Permutation_sym, ORDER_BY_perm].
      apply Permutation_filter. exact Hperm.
    - intros x y Hx Hy Hxy Hyx.
      apply (NoDup_map_eq version
               (filter (fun r => negb (IS_NULL (Raw.student_id r))) raw)); auto.
      + apply ORDER_BY_In in Hx. exact Hx.
      + apply ORDER_BY_In in Hy. exact Hy.
      + apply window_leb_antisym; assumption. }
  rewrite !table_emitted. unfold emitted. rewrite E. reflexivity.
Qed.

(** X6.  The gender column holds one of four values, whatever the feed
    says. *)
Theorem gender_is_standardized (env : run) (raw : list Raw.row) (d : Dim.row) :
  In d (table env raw) ->
  In (Dim.gender d) ["Male"; "Female"; "Other"; "Unknown"]%string.
Proof.
  intros H. apply In_table in H. destruct H as (u & k & _ & ->).
  simpl. unfold standardize_gender.
  repeat match goal with
         | |- context [if ?c then _ else _] => destruct c
         end; auto 6.
Qed.


End Model.

(** *** Worked inputs *)

Import Examples.

Lemma head_In {A} (l : list A) (x : A) : hd_error l = Some x -> In x l.
Proof. destruct l; simpl; intros H; [discriminate | inversion H; auto]. Qed.

Lemma rows_are_source_snapshots_witness :
  exists d, hd_error (build_dim run_a feed_move) = Some d /\
    exists r, In r feed_move /\ Dim.district d = Raw.district r /\
              Dim.effective_from d = Raw.created_at r.
Proof.
  assert (H : exists d, hd_error (build_dim run_a feed_move) = Some d)
    by (vm_compute; eexists; reflexivity).
  destruct H as (d & Hd). exists d. split; [exact Hd|].
  pose proof (head_In _ _ Hd) as Hin. unfold build_dim in Hin.
  destruct (rows_are_source_snapshots Builtins.MD5 Builtins.TO_HEX Builtins.LOWER
              run_a feed_move d Hin)
    as (r & Hr & _ & _ & Hfrom & _ & _ & _ & Hdistrict & _).
  exists r. split; [exact Hr | split; [exact Hdistrict | exact Hfrom]].
Defined.



Lemma one_version_in_effect_at_most_witness :
  exists d d', build_dim run_a feed_move = [d; d'] /\
    Dim.effective_from d <= midnight 2024 3 10 <= Dim.effective_to d /\
    ~ (Dim.effective_from d' <= midnight 2024 3 10 <= Dim.effective_to d').
Proof.
  assert (H : exists d d', build_dim run_a feed_move = [d; d']
                /\ Dim.student_id d = Some 1 /\ Dim.student_id d' = Some 1
                /\ Dim.effective_from d = midnight 2024 1 1
                /\ Dim.effective_to d = TIMESTAMP (mk_date 2024 5 31) 23 59 59
                /\ Dim.effective_from d' = midnight 2024 6 1).
  { vm_compute. do 2 eexists. repeat (split; [reflexivity|]). reflexivity. }
  destruct H as (d & d' & Htab & Hid & Hid' & Hfrom & Hto & Hfrom').
  exists d, d'. split; [exact Htab|].
  assert (Hin : Dim.effective_from d <= midnight 2024 3 10 <= Dim.effective_to d).
  { rewrite Hfrom, Hto. vm_compute. split; intros H; discriminate H. }
  split; [exact Hin|]. intros Hin'.
  unfold build_dim in Htab.
  assert (E : d = d').
  { apply (one_version_in_effect_at_most Builtins.MD5 Builtins.TO_HEX Builtins.LOWER
             run_a feed_move d d' (midnight 2024 3 10)).
    - rewrite Htab. left. reflexivity.
    - rewrite Htab. right. left. reflexivity.
    - congruence.
    - exact Hin.
    - exact Hin'. }
  rewrite E, Hfrom' in Hfrom. vm_compute in Hfrom. discriminate Hfrom.
Defined.

Lemma presentation_is_immaterial_without_ties_witness :
  build_dim run_a feed_move = build_dim run_a (rev feed_move).
Proof.
  apply (presentation_is_immaterial_without_ties Builtins.MD5 Builtins.TO_HEX
           Builtins.LOWER run_a feed_move (rev feed_move)).
  - vm_compute. constructor; [|constructor; [|constructor]].
    + intros [H|[]]. discriminate H.
    + intros [].
  - apply Permutation_rev.
Defined.

Lemma gender_is_standardized_witness :
  exists d, hd_error (build_dim run_a feed_move) = Some d /\
    In (Dim.gender d) ["Male"; "Female"; "Other"; "Unknown"]%string.
Proof.
  assert (H : exists d, hd_error (build_dim run_a feed_move) = Some d)
    by (vm_compute; eexists; reflexivity).
  destruct H as (d & Hd). exists d. split; [exact Hd|].
  pose proof (head_In _ _ Hd) as Hin. unfold build_dim in Hin.
  exact (gender_is_standardized Builtins.MD5 Builtins.TO_HEX Builtins.LOWER
           run_a feed_move d Hin).
Defined.


End DimStudentsInvariants.

(* ------------------------------------------------------------------ *)
(** ** Further invariants of [fct_assessment_results] *)

Module FctAssessmentResultsInvariants.

Import Sql Calendar SqlFacts FctAssessmentResults FctAssessmentResultsFacts.

Lemma filter_none {A} (p : A -> bool) (l : list A) :
  (forall x, In x l -> p x = false) -> filter p l = [].
Proof.
  induction l as [|a tl IH]; simpl; intros H; [reflexivity|].
  rewrite (H a) by auto. apply IH. intros x Hx. apply H. auto.
Qed.

Lemma IN_Z_cons (x : option Z) (y : option Z) (tl : list (option Z)) :
  IN_Z x (y :: tl)
  = match x with
    | None => None
    | Some v =>
        if existsb (fun y => join_eq (Some v) y) (y :: tl) then Some true
        else if existsb IS_NULL (y :: tl) then None
        else Some false
    end.
Proof. destruct x; reflexivity. Qed.

(** [x NOT IN (l)] holds only for an [x] that is not NULL and differs
    from every member of [l], none of which is NULL. *)
Lemma NOT_IN_true (x : option Z) (l : list (option Z)) :
  is_true (NOT3 (IN_Z x l)) = true <->
  l = [] \/ (exists v, x = Some v /\
               forall y, In y l -> exists w, y = Some w /\ w <> v).
Proof.
  destruct l as [|y0 tl]; [simpl; split; auto|].
  rewrite IN_Z_cons. remember (y0 :: tl) as l eqn:El.
  assert (Hne : l <> []) by (rewrite El; discriminate). clear El y0 tl.
  destruct x as [v|].
  - destruct (existsb (fun y => join_eq (Some v) y) l) eqn:E1.
    + split; [intros H; discriminate H|].
      intros [H | (v' & Hv & H)]; [contradiction|].
      inversion Hv; subst v'. apply existsb_exists in E1.
      destruct E1 as (y & Hy & Hj). destruct (H y Hy) as (w & -> & Hw).
      simpl in Hj. apply Z.eqb_eq in Hj. congruence.
    + destruct (existsb IS_NULL l) eqn:E2.
      * split; [intros H; discriminate H|].
        intros [H | (v' & Hv & H)]; [contradiction|].
        apply existsb_exists in E2. destruct E2 as (y & Hy & Hn).
        destruct (H y Hy) as (w & -> & _). discriminate Hn.
      * split; [|reflexivity]. intros _. right. exists v. split; [reflexivity|].
        intros y Hy. destruct y as [w|].
        -- exists w. split; [reflexivity|]. intros ->.
           assert (H : existsb (fun y => join_eq (Some v) y) l = true).
           { apply existsb_exists. exists (Some v). split; [exact Hy|].
             simpl. apply Z.eqb_refl. }
           congruence.
        -- assert (H : existsb IS_NULL l = true).
           { apply existsb_exists. exists None. split; [exact Hy | reflexivity]. }
           congruence.
  - split; [intros H; discriminate H|].
    intros [H | (v & Hv & _)]; [contradiction | discriminate Hv].
Qed.

Section Run.

Variable generate_surrogate_key : option Z -> option timestamp -> string.
Variable env : run.
Variable db : sources.

Let output (mode : load) := fct_assessment_results generate_surrogate_key env mode db.

Lemma output_source (mode : load) (f : Fact.row) :
  In f (output mode) ->
  not_loaded env mode f = true /\
  exists ar si ti sch sub,
    f = enrich generate_surrogate_key env ar si ti sch sub /\
    In ar (stg_assessment_results db) /\ staged env mode ar = true.
Proof.
  intros Hf. split.
  - apply In_output in Hf.
    apply (first_is_latest Fact.assessment_result_id Fact.recorded_at) in Hf.
    destruct Hf as (Hf & _). apply filter_In in Hf. tauto.
  - apply output_enriched, In_enriched in Hf.
    destruct Hf as (ar & si & ti & sch & sub & -> & Har & _).
    apply (first_is_latest Stg.assessment_result_id Stg.recorded_at) in Har.
    destruct Har as (Har & _). apply filter_In in Har.
    exists ar, si, ti, sch, sub. tauto.
Qed.

(** X8.  Every emitted row has an assessment date, with its month, quarter
    and year; on an incremental load it was recorded no earlier than the
    first instant of the year before the current one. *)
Theorem emitted_rows_are_dated (mode : load) (f : Fact.row) :
  In f (output mode) ->
  (exists d, Fact.assessment_date f = Some d /\
     Fact.assessment_month f = Some (mk_date (year d) (month d) 1) /\
     Fact.assessment_year f = Some (mk_date (year d) 1 1)) /\
  match mode with
  | FullRefresh => True
  | Incremental _ =>
      exists t, Fact.recorded_at f = Some t /\
                TIMESTAMP (mk_date (year (CURRENT_DATE env) - 1) 1 1) 0 0 0 <= t
  end.
Proof.
  intros Hf. apply output_source in Hf.
  destruct Hf as (_ & ar & si & ti & sch & sub & -> & _ & Hst).
  unfold staged in Hst. apply andb_true_iff in Hst. destruct Hst as (Hd & Hw).
  simpl. split.
  - destruct (Stg.assessment_date ar) as [d|]; [|discriminate Hd].
    exists d. auto.
  - destruct mode; [exact I|].
    destruct (Stg.recorded_at ar) as [t|]; [|discriminate Hw].
    exists t. split; [reflexivity|]. simpl in Hw.
    destruct (window_start env <=? t) eqn:E; [|discriminate Hw].
    apply Z.leb_le in E. exact E.
Qed.

(** X9.  An incremental load never writes a result the table already holds
    with an assessment date since the first day of last year: no emitted
    row shares its [assessment_result_id] with such a row of the table.
    A newer version of an already loaded result is therefore not
    picked up. *)
Theorem incremental_load_skips_loaded_results (target : list Fact.row)
  (f g : Fact.row) (d : date) :
  In f (output (Incremental target)) ->
  In g target -> Fact.assessment_date g = Some d ->
  date_leb (mk_date (year (CURRENT_DATE env) - 1) 1 1) d = true ->
  Fact.assessment_result_id f <> Fact.assessment_result_id g.
Proof.
  intros Hf Hg Hd Hsince. apply output_source in Hf. destruct Hf as (Hnew & _).
  unfold not_loaded in Hnew. apply NOT_IN_true in Hnew.
  assert (Hin : In (Fact.assessment_result_id g) (already_loaded env target)).
  { unfold already_loaded. apply in_map. apply filter_In. split; [exact Hg|].
    rewrite Hd. simpl. rewrite Hsince. reflexivity. }
  destruct Hnew as [Hnil | (v & Hv & Hall)].
  - rewrite Hnil in Hin. destruct Hin.
  - destruct (Hall _ Hin) as (w & Hw & Hneq). rewrite Hv, Hw. congruence.
Qed.

(** X10.  One row of the table without [assessment_result_id], dated since
    the first day of last year, stops every incremental load: [NOT IN]
    over a list with a NULL is never true, and nothing is emitted. *)
Theorem null_id_in_table_blocks_incremental_load (target : list Fact.row) :
  In None (already_loaded env target) ->
  output (Incremental target) = [].
Proof.
  intros Hnull. unfold output, fct_assessment_results.
  rewrite filter_none; [reflexivity|].
  intros f _. unfold not_loaded.
  destruct (is_true (NOT3 (IN_Z (Fact.assessment_result_id f)
                             (already_loaded env target)))) eqn:E; [|reflexivity].
  apply NOT_IN_true in E. destruct E as [E | (v & _ & Hall)].
  - rewrite E in Hnull. destruct Hnull.
  - destruct (Hall None Hnull) as (w & Hw & _). discriminate Hw.
Qed.

(** X11.  A full refresh writes one row for each distinct
    [assessment_result_id] among the staged rows that have an assessment
    date, and no other row: the ids of the table are those ids, each
    once. *)
Theorem full_refresh_emits_each_result_once :
  NoDup (map Fact.assessment_result_id (output FullRefresh)) /\
  forall i, In i (map Fact.assessment_result_id (output FullRefresh)) <->
            exists r, In r (stg_assessment_results db) /\
                      Stg.assessment_date r <> None /\
                      Stg.assessment_result_id r = i.
Proof.
  split.
  - apply (Permutation_NoDup (l := map Fact.assessment_result_id
             (qualify (filter (not_loaded env FullRefresh)
                (enriched_results generate_surrogate_key env FullRefresh db))))).
    + apply Permutation_map, Permutation_sym, ORDER_BY_perm.
    + apply (firsts_NoDup Fact.assessment_result_id Fact.recorded_at).
  - intros i. rewrite in_map_iff. split.
    + intros (f & <- & Hf). apply output_source in Hf.
      destruct Hf as (_ & ar & si & ti & sch & sub & -> & Har & Hst).
      exists ar. split; [exact Har|]. split; [|reflexivity].
      unfold staged in Hst. apply andb_true_iff in Hst.
      destruct (Stg.assessment_date ar); [discriminate | destruct Hst; discriminate].
    + intros (r & Hr & Hd & <-).
      assert (Hin : In r (filter (staged env FullRefresh) (stg_assessment_results db))).
      { apply filter_In. split; [exact Hr|]. unfold staged.
        destruct (Stg.assessment_date r); [reflexivity | congruence]. }
      destruct (firsts_exists Stg.assessment_result_id Stg.recorded_at _ _ Hin)
        as (ar & Har & Hid).
      destruct (newest_version_emitted generate_surrogate_key env FullRefresh db ar Har)
        as (si & ti & sch & sub & Hout); [reflexivity|].
      eexists. split; [|exact Hout]. simpl. exact Hid.
Qed.

End Run.

(** *** The derived measures, together *)

Lemma at_least_mono (p : option Q) (t t' : Q) :
  (t <= t')%Q -> at_least p t' = true -> at_least p t = true.
Proof.
  unfold at_least. destruct p as [v|]; simpl; [|discriminate].
  intros Hle. destruct (Qle_bool t' v) eqn:E; [|discriminate]. intros _.
  apply Qle_bool_iff in E.
  assert (H : Qle_bool t v = true) by (apply Qle_bool_iff; eapply Qle_trans; eassumption).
  rewrite H. reflexivity.
Qed.

Lemma grade_category_and_indicators (p : option Q) :
  (standardized_grade_of p = "F"%string <-> is_passed_indicator_of p = 0) /\
  (In (standardized_grade_of p) ["A+"; "A"; "A-"]%string
   <-> is_good_performance_of p = 1) /\
  (is_good_performance_of p = 1 -> is_passed_indicator_of p = 1) /\
  In (standardized_grade_of p, performance_category_of p)
    [("A+", "Excellent (80-100%)"); ("A", "Very Good (70-79%)");
     ("A-", "Good (60-69%)"); ("B", "Satisfactory (50-59%)");
     ("C", "Adequate (40-49%)"); ("D", "Marginal (33-39%)");
     ("F", "Fail (Below 33%)")]%string.
Proof.
  pose proof (at_least_mono p 33 40 ltac:(discriminate)) as M40.
  pose proof (at_least_mono p 40 50 ltac:(discriminate)) as M50.
  pose proof (at_least_mono p 50 60 ltac:(discriminate)) as M60.
  pose proof (at_least_mono p 60 70 ltac:(discriminate)) as M70.
  pose proof (at_least_mono p 70 80 ltac:(discriminate)) as M80.
  unfold standardized_grade_of, performance_category_of, is_passed_indicator_of,
    is_good_performance_of.
  destruct (at_least p 80) eqn:E80, (at_least p 70) eqn:E70,
    (at_least p 60) eqn:E60, (at_least p 50) eqn:E50,
    (at_least p 40) eqn:E40, (at_least p 33) eqn:E33;
    try discriminate (M80 eq_refl); try discriminate (M70 eq_refl);
    try discriminate (M60 eq_refl); try discriminate (M50 eq_refl);
    try discriminate (M40 eq_refl);
    (split; [split; intros H; first [reflexivity | discriminate H]|]);
    (split;
     [split; intros H;
      first [reflexivity | discriminate H | (simpl; auto; fail)
            | (simpl in H;
               repeat (destruct H as [H|H]; try discriminate H); contradiction)]|]);
    (split; [intros H; first [reflexivity | discriminate H]|]);
    simpl; auto 10.
Qed.

Section Rows.

Variable generate_surrogate_key : option Z -> option timestamp -> string.
Variable env : run.
Variable mode : load.
Variable db : sources.

Let output := fct_assessment_results generate_surrogate_key env mode db.

(** X12.  The grade, the category and the two indicators of an emitted row
    never contradict each other: the grade is F exactly when the pass
    indicator is 0, it is A+, A or A- exactly when the good-performance
    indicator is 1, a good performance is a pass, and the category is
    the one that goes with the grade. *)
Theorem grade_category_and_indicators_agree (f : Fact.row) :
  In f output ->
  (Fact.standardized_grade f = "F"%string <-> Fact.is_passed_indicator f = 0) /\
  (In (Fact.standardized_grade f) ["A+"; "A"; "A-"]%string
   <-> Fact.is_good_performance f = 1) /\
  (Fact.is_good_performance f = 1 -> Fact.is_passed_indicator f = 1) /\
  In (Fact.standardized_grade f, Fact.performance_category f)
    [("A+", "Excellent (80-100%)"); ("A", "Very Good (70-79%)");
     ("A-", "Good (60-69%)"); ("B", "Satisfactory (50-59%)");
     ("C", "Adequate (40-49%)"); ("D", "Marginal (33-39%)");
     ("F", "Fail (Below 33%)")]%string.
Proof.
  intros Hf. apply output_source in Hf.
  destruct Hf as (_ & ar & si & ti & sch & sub & -> & _).
  apply (grade_category_and_indicators (Stg.percentage ar)).
Qed.


End Rows.

(** *** Worked inputs *)

Import Examples.

Lemma emitted_rows_are_dated_witness :
  exists f d, hd_error (build_fact_incrementally [] batch_with_versions) = Some f /\
    Fact.assessment_date f = Some d /\
    exists t, Fact.recorded_at f = Some t /\ midnight 2024 1 1 <= t.
Proof.
  assert (H : exists f, hd_error (build_fact_incrementally [] batch_with_versions) = Some f)
    by (vm_compute; eexists; reflexivity).
  destruct H as (f & Hf).
  pose proof (hd_error_In _ _ Hf) as Hin. unfold build_fact_incrementally in Hin.
  destruct (emitted_rows_are_dated surrogate_key run_a (warehouse batch_with_versions)
              (Incremental []) f Hin) as ((d & Hd & _) & (t & Ht & Hle)).
  exists f, d. split; [exact Hf | split; [exact Hd|]]. exists t. split; [exact Ht | exact Hle].
Defined.

(** Result 1 is in the table; the incremental load over the batch with
    its newer versions writes result 2 alone. *)
Lemma incremental_load_skips_loaded_results_witness :
  exists f, hd_error (build_fact_incrementally [loaded_fact] batch_with_versions) = Some f /\
    Fact.assessment_result_id f <> Fact.assessment_result_id loaded_fact.
Proof.
  assert (H : exists f, hd_error (build_fact_incrementally [loaded_fact]
                                    batch_with_versions) = Some f)
    by (vm_compute; eexists; reflexivity).
  destruct H as (f & Hf). exists f. split; [exact Hf|].
  pose proof (hd_error_In _ _ Hf) as Hin. unfold build_fact_incrementally in Hin.
  apply (incremental_load_skips_loaded_results surrogate_key run_a
           (warehouse batch_with_versions) [loaded_fact] f loaded_fact
           (mk_date 2024 3 10) Hin).
  - left. reflexivity.
  - reflexivity.
  - reflexivity.
Defined.

Lemma null_id_in_table_blocks_incremental_load_witness :
  build_fact_incrementally [fact_without_id] batch_with_versions = [].
Proof.
  apply (null_id_in_table_blocks_incremental_load surrogate_key run_a
           (warehouse batch_with_versions) [fact_without_id]).
  left. reflexivity.
Defined.

Lemma full_refresh_emits_each_result_once_witness :
  In (Some 2) (map Fact.assessment_result_id (build_fact batch_with_versions)).
Proof.
  apply (proj2 (full_refresh_emits_each_result_once surrogate_key run_a
                  (warehouse batch_with_versions)) (Some 2)).
  exists (result 2 1 (mk_date 2024 3 11) 20 50 40 (midnight 2024 3 12)).
  split; [|split; [discriminate | reflexivity]].
  change (In (result 2 1 (mk_date 2024 3 11) 20 50 40 (midnight 2024 3 12))
            batch_with_versions).
  right. right. right. left. reflexivity.
Defined.

Lemma grade_category_and_indicators_agree_witness :
  exists f, hd_error (build_fact batch_with_versions) = Some f /\
    In (Fact.standardized_grade f, Fact.performance_category f)
      [("A+", "Excellent (80-100%)"); ("A", "Very Good (70-79%)");
       ("A-", "Good (60-69%)"); ("B", "Satisfactory (50-59%)");
       ("C", "Adequate (40-49%)"); ("D", "Marginal (33-39%)");
       ("F", "Fail (Below 33%)")]%string.
Proof.
  assert (H : exists f, hd_error (build_fact batch_with_versions) = Some f)
    by (vm_compute; eexists; reflexivity).
  destruct H as (f & Hf). exists f. split; [exact Hf|].
  pose proof (hd_error_In _ _ Hf) as Hin. unfold build_fact in Hin.
  exact (proj2 (proj2 (proj2 (grade_category_and_indicators_agree surrogate_key
                                run_a FullRefresh (warehouse batch_with_versions)
                                f Hin)))).
Defined.


End FctAssessmentResultsInvariants.

(* ------------------------------------------------------------------ *)
(** ** Further invariants of [equity_metrics] *)

Module EquityMetricsInvariants.

Import Sql Calendar SqlFacts EquityMetrics EquityMetricsFacts.

(** *** Sums of counts *)

Lemma SUM_Z_fold (f : Metric.row -> Z) (ms : list Metric.row) (acc : Z) :
  fold_left (fun acc x =>
               match x with
               | None => acc
               | Some v => Some (match acc with Some a => a + v | None => v end)
               end) (map (fun m => Some (f m)) ms) (Some acc)
  = Some (acc + fold_right (fun m s => f m + s) 0 ms).
Proof.
  revert acc. induction ms as [|m tl IH]; intros acc; simpl.
  - f_equal. lia.
  - rewrite IH. f_equal. lia.
Qed.

Lemma SUM_Z_counts (f : Metric.row -> Z) (m : Metric.row) (tl : list Metric.row) :
  SUM_Z (map (fun m => Some (f m)) (m :: tl))
  = Some (fold_right (fun m s => f m + s) 0 (m :: tl)).
Proof. unfold SUM_Z. simpl. rewrite SUM_Z_fold. reflexivity. Qed.

Lemma count_where_sum (c : Metric.row -> bool) (m : Metric.row) (tl : list Metric.row) :
  count_where c (m :: tl)
  = Some (fold_right (fun m s => (if c m then Grouped.student_count (Metric.src m)
                                  else 0) + s) 0 (m :: tl)).
Proof.
  unfold count_where.
  rewrite (map_ext _ (fun m => Some (if c m then Grouped.student_count (Metric.src m) else 0)))
    by (intros x; destruct (c x); reflexivity).
  apply (SUM_Z_counts (fun m => if c m then Grouped.student_count (Metric.src m) else 0)).
Qed.

Lemma sum_where_none (c : Metric.row -> bool) (l : list Metric.row) :
  (forall m, In m l -> c m = false) ->
  fold_right (fun m s => (if c m then Grouped.student_count (Metric.src m) else 0) + s)
    0 l = 0.
Proof.
  induction l as [|m tl IH]; simpl; intros H; [reflexivity|].
  rewrite (H m) by auto. rewrite IH; [reflexivity|]. intros x Hx. apply H. auto.
Qed.

Lemma sum_where_all (c : Metric.row -> bool) (l : list Metric.row) :
  (forall m, In m l -> c m = true) ->
  fold_right (fun m s => (if c m then Grouped.student_count (Metric.src m) else 0) + s)
    0 l
  = fold_right (fun m s => Grouped.student_count (Metric.src m) + s) 0 l.
Proof.
  induction l as [|m tl IH]; simpl; intros H; [reflexivity|].
  rewrite (H m) by auto. rewrite IH; [reflexivity|]. intros x Hx. apply H. auto.
Qed.

Lemma sum_where_bounds (c c' : Metric.row -> bool) (l : list Metric.row) :
  (forall m, In m l -> 0 <= Grouped.student_count (Metric.src m)) ->
  (forall m, In m l -> c m = true -> c' m = false) ->
  let sum (p : Metric.row -> bool) := fold_right (fun m s => (if p m then Grouped.student_count (Metric.src m)
                                        else 0) + s) 0 l in
  let total := fold_right (fun m s => Grouped.student_count (Metric.src m) + s) 0 l in
  0 <= sum c /\ sum c + sum c' <= total.
Proof.
  induction l as [|m tl IH]; simpl; intros Hpos Hex; [lia|].
  destruct IH as (IH1 & IH2).
  - intros x Hx. apply Hpos. auto.
  - intros x Hx. apply Hex. auto.
  - specialize (Hpos m (or_introl eq_refl)). specialize (Hex m (or_introl eq_refl)).
    destruct (c m); [rewrite (Hex eq_refl)|destruct (c' m)]; lia.
Qed.

Lemma sum_where_positive (c : Metric.row -> bool) (l : list Metric.row) :
  0 < fold_right (fun m s => (if c m then Grouped.student_count (Metric.src m) else 0) + s)
        0 l ->
  exists m, In m l /\ c m = true.
Proof.
  intros Hsum.
  destruct (existsb c l) eqn:E.
  - apply existsb_exists in E. exact E.
  - rewrite sum_where_none in Hsum; [lia|].
    intros m Hm. destruct (c m) eqn:Ec; [|reflexivity].
    assert (existsb c l = true) by (apply existsb_exists; eauto). congruence.
Qed.

(** *** The rows of a group *)

Lemma group_rows (a : Analysis.row) (gs : list Grouped.row) :
  In a (equity_analysis (student_metrics gs)) ->
  exists m tl,
    a = analyse (Analysis.key a) (m :: tl) /\
    forall x, In x (m :: tl) ->
      key_of x = Analysis.key a /\
      exists g, In g gs /\ x = student_metric g.
Proof.
  intros Ha. destruct (In_equity_analysis a _ Ha) as (m & tl & Hf & E).
  exists m, tl. split; [exact E|]. intros x Hx. rewrite <- Hf in Hx.
  apply filter_In in Hx. destruct Hx as (Hx & Hk). apply key_eqb_eq in Hk.
  split; [auto|]. unfold student_metrics in Hx. apply in_map_iff in Hx.
  destruct Hx as (g & <- & Hg). eauto.
Qed.

Lemma mart_rows_keys (env : run) (n : nat) (l : list Analysis.row) :
  map Mart.key (select_rows env n l) = map Analysis.key l.
Proof.
  revert n. induction l as [|a tl IH]; intros n; simpl; [reflexivity|].
  f_equal. apply IH.
Qed.

(** X14.  The mart has one row at most for a combination of the grouping
    columns. *)
Theorem one_row_per_group (env : run) (gs : list Grouped.row) :
  NoDup (map Mart.key (equity_metrics env gs)).
Proof.
  unfold equity_metrics. rewrite mart_rows_keys.
  apply DimStudentsFacts.NoDup_map_filter.
  rewrite analysis_keys. apply distinct_NoDup.
Qed.

(** X15.  The urban/rural gap is never reported: the classification is one
    of the grouping columns, so the students of a group are all rural or
    all urban, one of the two averages is NULL, the gap is NULL and the
    location flag is 0 (not equitable) in every row; the rural count of
    a row is 0 or the total. *)
Theorem location_gap_is_always_null (env : run) (gs : list Grouped.row)
  (m : Mart.row) :
  In m (equity_metrics env gs) ->
  Mart.urban_rural_gap m = None /\ Mart.is_location_equitable m = 0 /\
  (Mart.rural_avg_performance m = None \/ Mart.urban_avg_performance m = None) /\
  (Mart.rural_count m = Some 0 \/ Mart.rural_count m = Mart.total_students m).
Proof.
  intros Hm. apply In_equity_metrics in Hm. destruct Hm as (a & k & Ha & _ & ->).
  destruct (group_rows a gs Ha) as (x & tl & E & Hrows).
  set (rural := str_is (urban_rural_classification (Analysis.key a)) "Rural").
  assert (Hflag : forall y, In y (x :: tl) ->
                    Metric.is_rural_area y = if rural then 1 else 0).
  { intros y Hy. destruct (Hrows y Hy) as (Hk & g & _ & ->).
    unfold rural. rewrite <- Hk. reflexivity. }
  cbn [select_row Mart.urban_rural_gap Mart.is_location_equitable
       Mart.rural_avg_performance Mart.urban_avg_performance Mart.rural_count
       Mart.total_students].
  rewrite E.
  cbn [analyse Analysis.urban_avg_performance Analysis.rural_avg_performance
       Analysis.rural_count Analysis.total_students].
  unfold subgroup_avg. rewrite !count_where_sum.
  rewrite (SUM_Z_counts (fun m => Grouped.student_count (Metric.src m))).
  destruct rural.
  - (* every row is rural: the urban subgroup is empty *)
    rewrite (sum_where_none (flag Metric.is_rural_area 0)) by
      (intros y Hy; unfold flag; rewrite (Hflag y Hy); reflexivity).
    rewrite (sum_where_all (flag Metric.is_rural_area 1)) by
      (intros y Hy; unfold flag; rewrite (Hflag y Hy); reflexivity).
    assert (Hu : SAFE_DIVIDE (weighted_sum (flag Metric.is_rural_area 0) (x :: tl))
                   (NULLIF (lift1 inject_Z (Some 0)) 0) = None).
    { unfold SAFE_DIVIDE, NULLIF, lift1. simpl.
      destruct (weighted_sum (flag Metric.is_rural_area 0) (x :: tl)); reflexivity. }
    rewrite Hu. unfold gap, equitable, lift1, lift2, is_true.
    split; [reflexivity | split; [reflexivity | split; right; reflexivity]].
  - rewrite (sum_where_none (flag Metric.is_rural_area 1)) by
      (intros y Hy; unfold flag; rewrite (Hflag y Hy); reflexivity).
    assert (Hr : SAFE_DIVIDE (weighted_sum (flag Metric.is_rural_area 1) (x :: tl))
                   (NULLIF (lift1 inject_Z (Some 0)) 0) = None).
    { unfold SAFE_DIVIDE, NULLIF, lift1. simpl.
      destruct (weighted_sum (flag Metric.is_rural_area 1) (x :: tl)); reflexivity. }
    rewrite Hr. clear Hr. unfold gap, equitable, lift1, lift2, is_true.
    destruct (SAFE_DIVIDE (weighted_sum (flag Metric.is_rural_area 0) (x :: tl)) _);
      (split; [reflexivity | split; [reflexivity | split; left; reflexivity]]).
Qed.

(** *** Averages *)

Lemma SUM_Q_from_some (xs : list (option Q)) (a : Q) :
  exists s, fold_left (fun acc x =>
               match x with
               | None => acc
               | Some v => Some (match acc with Some a => (a + v)%Q | None => v end)
               end) xs (Some a) = Some s.
Proof.
  revert a. induction xs as [|x tl IH]; intros a; simpl; [eauto|].
  destruct x; apply IH.
Qed.

Lemma SUM_Q_some (xs : list (option Q)) :
  (exists v, In (Some v) xs) -> exists s, SUM_Q xs = Some s.
Proof.
  unfold SUM_Q. generalize (@None Q) as acc.
  induction xs as [|x tl IH]; intros acc (v & Hv); [destruct Hv|].
  simpl. destruct x as [w|].
  - apply SUM_Q_from_some.
  - apply IH. destruct Hv as [Hv|Hv]; [discriminate Hv | eauto].
Qed.

Lemma subgroup_avg_some (c : Metric.row -> bool) (m : Metric.row)
  (tl : list Metric.row) (n : Z) :
  count_where c (m :: tl) = Some n -> n <> 0 ->
  (exists x, In x (m :: tl) /\ c x = false) ->
  exists q, subgroup_avg c (m :: tl) = Some q.
Proof.
  intros Hn Hne (x & Hx & Hc). unfold subgroup_avg. rewrite Hn.
  destruct (SUM_Q_some (map (fun m =>
              if c m
              then lift2 Qmult (Grouped.avg_performance (Metric.src m))
                     (Some (inject_Z (Grouped.student_count (Metric.src m))))
              else Some 0%Q) (m :: tl))) as (s & Hs).
  { exists 0%Q. apply in_map_iff. exists x. rewrite Hc. auto. }
  unfold weighted_sum. rewrite Hs. unfold NULLIF, SAFE_DIVIDE, lift1.
  assert (E : Qeq_bool (inject_Z n) 0 = false).
  { destruct (Qeq_bool (inject_Z n) 0) eqn:E; [|reflexivity].
    apply Qeq_bool_iff in E. unfold Qeq in E. simpl in E. lia. }
  rewrite E, E. eauto.
Qed.

Lemma male_is_not_female (x : Metric.row) : male x = true -> female x = false.
Proof.
  unfold male, female, str_is. destruct (Grouped.gender (Metric.src x)) as [g|];
    cbn [lift1 is_true]; [|intros H; discriminate H].
  destruct (String.eqb "Male" g) eqn:E; [|intros H; discriminate H]. intros _.
  apply String.eqb_eq in E. subst g. reflexivity.
Qed.

Lemma female_is_not_male (x : Metric.row) : female x = true -> male x = false.
Proof.
  intros H. destruct (male x) eqn:E; [|reflexivity].
  apply male_is_not_female in E. congruence.
Qed.

(** X16.  The gender figures of a row of the mart are never NULL: a row has
    girls and boys, so both averages and the gap have a value. *)
Theorem gender_figures_are_never_null (env : run) (gs : list Grouped.row)
  (m : Mart.row) :
  In m (equity_metrics env gs) ->
  exists fa ma gp,
    Mart.female_avg_performance m = Some fa /\
    Mart.male_avg_performance m = Some ma /\
    Mart.gender_gap m = Some gp.
Proof.
  intros Hm. apply In_equity_metrics in Hm. destruct Hm as (a & k & Ha & Hs & ->).
  destruct (analysis_counts a _ Ha)
    as (t & f & b & l & w & r & Ht & Hf & Hb & Hl & Hw & Hr).
  apply (sufficient_counts a t f b l w r Ht Hf Hb Hl Hw Hr) in Hs.
  destruct (group_rows a gs Ha) as (x & tl & E & _).
  rewrite E in Hf, Hb. cbn [analyse Analysis.female_count Analysis.male_count] in Hf, Hb.
  assert (Hgirl : exists y, In y (x :: tl) /\ female y = true).
  { apply sum_where_positive. rewrite count_where_sum in Hf.
    match type of Hf with Some ?s = _ => assert (Hs' : s = f) by congruence end.
    rewrite Hs'. lia. }
  assert (Hboy : exists y, In y (x :: tl) /\ male y = true).
  { apply sum_where_positive. rewrite count_where_sum in Hb.
    match type of Hb with Some ?s = _ => assert (Hs' : s = b) by congruence end.
    rewrite Hs'. lia. }
  destruct Hgirl as (y1 & Hy1 & Hg). destruct Hboy as (y2 & Hy2 & Hbm).
  destruct (subgroup_avg_some female x tl f Hf) as (fa & Hfa);
    [lia | exists y2; split; [exact Hy2 | apply male_is_not_female; exact Hbm] |].
  destruct (subgroup_avg_some male x tl b Hb) as (ma & Hma);
    [lia | exists y1; split; [exact Hy1 | apply female_is_not_male; exact Hg] |].
  cbn [select_row Mart.female_avg_performance Mart.male_avg_performance Mart.gender_gap].
  rewrite E. cbn [analyse Analysis.female_avg_performance Analysis.male_avg_performance].
  rewrite Hfa, Hma. unfold gap, lift1, lift2.
  do 3 eexists. split; [reflexivity | split; reflexivity].
Qed.

(** X17.  Where no group of [student_metrics] has a negative student count,
    the subgroup counts of a row of the mart fit into its total: girls
    and boys together do not exceed it, nor do the low-income students,
    the students with a disability or the rural students, and none of
    the counts is negative. *)
Theorem subgroup_counts_fit_the_total (env : run) (gs : list Grouped.row)
  (m : Mart.row) :
  (forall g, In g gs -> 0 <= Grouped.student_count g) ->
  In m (equity_metrics env gs) ->
  exists t f b l w r,
    Mart.total_students m = Some t /\ Mart.female_count m = Some f /\
    Mart.male_count m = Some b /\ Mart.low_income_count m = Some l /\
    Mart.with_disability_count m = Some w /\ Mart.rural_count m = Some r /\
    0 <= f /\ 0 <= b /\ f + b <= t /\ 0 <= l <= t /\ 0 <= w <= t /\ 0 <= r <= t.
Proof.
  intros Hpos Hm. apply In_equity_metrics in Hm. destruct Hm as (a & k & Ha & _ & ->).
  destruct (group_rows a gs Ha) as (x & tl & E & Hrows).
  assert (Hpos' : forall y, In y (x :: tl) -> 0 <= Grouped.student_count (Metric.src y)).
  { intros y Hy. destruct (Hrows y Hy) as (_ & g & Hg & ->). apply Hpos. exact Hg. }
  cbn [select_row Mart.total_students Mart.female_count Mart.male_count
       Mart.low_income_count Mart.with_disability_count Mart.rural_count].
  rewrite E.
  cbn [analyse Analysis.total_students Analysis.female_count Analysis.male_count
       Analysis.low_income_count Analysis.with_disability_count Analysis.rural_count].
  rewrite !count_where_sum.
  rewrite (SUM_Z_counts (fun m => Grouped.student_count (Metric.src m))).
  do 6 eexists. repeat (split; [reflexivity|]).
  pose proof (sum_where_bounds female male (x :: tl) Hpos'
                (fun y _ H => female_is_not_male y H)) as (F1 & F2).
  pose proof (sum_where_bounds male female (x :: tl) Hpos'
                (fun y _ H => male_is_not_female y H)) as (B1 & _).
  assert (Hone : forall c : Metric.row -> bool,
            0 <= fold_right (fun m s => (if c m then Grouped.student_count (Metric.src m)
                                         else 0) + s) 0 (x :: tl)
            <= fold_right (fun m s => Grouped.student_count (Metric.src m) + s) 0 (x :: tl)).
  { intros c.
    pose proof (sum_where_bounds c (fun _ => false) (x :: tl) Hpos'
                  (fun _ _ _ => eq_refl)) as (C1 & C2).
    cbv zeta in C1, C2.
    rewrite (sum_where_none (fun _ : Metric.row => false)) in C2 by reflexivity.
    lia. }
  pose proof (Hone (flag Metric.is_low_income 1)).
  pose proof (Hone (flag Metric.has_disability_flag 1)).
  pose proof (Hone (flag Metric.is_rural_area 1)).
  cbv zeta in F1, F2, B1. lia.
Qed.

(** *** Rounding and the flags *)

Lemma hundredths (z : Z) : (z # 100 == inject_Z z * (1 # 100))%Q.
Proof. unfold Qeq. simpl. lia. Qed.

Lemma round_half_away_close (q : Q) :
  (q - (1 # 2) <= inject_Z (round_half_away q) <= q + (1 # 2))%Q.
Proof.
  unfold round_half_away. destruct (Qle_bool 0 q) eqn:E.
  - pose proof (Qfloor_le (q + (1 # 2))) as H1.
    pose proof (Qlt_floor (q + (1 # 2))) as H2.
    rewrite inject_Z_plus in H2. change (inject_Z 1) with 1%Q in H2.
    revert H1 H2. generalize (inject_Z (Qfloor (q + (1 # 2)))). intros z H1 H2.
    split; lra.
  - pose proof (Qfloor_le (- q + (1 # 2))) as H1.
    pose proof (Qlt_floor (- q + (1 # 2))) as H2.
    rewrite inject_Z_plus in H2. change (inject_Z 1) with 1%Q in H2.
    rewrite inject_Z_opp.
    revert H1 H2. generalize (inject_Z (Qfloor (- q + (1 # 2)))). intros z H1 H2.
    split; lra.
Qed.

Lemma round_half_away_sign (q : Q) :
  ((0 <= q)%Q -> 0 <= round_half_away q) /\
  ((q <= 0)%Q -> round_half_away q <= 0).
Proof.
  unfold round_half_away. split; intros H.
  - assert (E : Qle_bool 0 q = true) by (apply Qle_bool_iff; exact H). rewrite E.
    change 0 with (Qfloor 0). apply Qfloor_resp_le. lra.
  - destruct (Qle_bool 0 q) eqn:E.
    + apply Qle_bool_iff in E.
      pose proof (Qfloor_le (q + (1 # 2))) as H1.
      assert (Hz : (inject_Z (Qfloor (q + (1 # 2))) < inject_Z 1)%Q).
      { change (inject_Z 1) with 1%Q.
        revert H1. generalize (inject_Z (Qfloor (q + (1 # 2)))). intros z H1. lra. }
      rewrite <- Zlt_Qlt in Hz. lia.
    + assert (0 <= Qfloor (- q + (1 # 2))); [|lia].
      change 0 with (Qfloor 0). apply Qfloor_resp_le. lra.
Qed.

(** X18.  A reported gap lies within half a hundredth of the difference of
    the two averages and does not turn its sign: it is not negative where
    the advantaged subgroup is at least level, and not positive where it
    is at most level; the equitable flag is 1 exactly when both averages
    exist and differ by 5 at most, and then the reported gap is within
    5 too. *)
Theorem gap_tracks_the_difference (advantaged disadvantaged : option Q) :
  (forall g, gap advantaged disadvantaged = Some g ->
     exists x y, advantaged = Some x /\ disadvantaged = Some y /\
       (Qabs (g - (x - y)) <= 1 # 200)%Q /\
       ((y <= x)%Q -> (0 <= g)%Q) /\ ((x <= y)%Q -> (g <= 0)%Q)) /\
  (equitable advantaged disadvantaged = 1 <->
   exists x y, advantaged = Some x /\ disadvantaged = Some y /\
               (Qabs (x - y) <= 5)%Q) /\
  (equitable advantaged disadvantaged = 1 ->
   exists g, gap advantaged disadvantaged = Some g /\ (Qabs g <= 5)%Q).
Proof.
  destruct advantaged as [x|], disadvantaged as [y|];
    unfold gap, equitable, lift1, lift2, is_true;
    try (split; [intros g H; discriminate H
                | split; [split; [intros H; discriminate H
                                 | intros (x' & y' & H1 & H2 & _); discriminate]
                         | intros H; discriminate H]]).
  pose proof (round_half_away_close ((x - y) * 100)) as (C1 & C2).
  pose proof (round_half_away_sign ((x - y) * 100)) as (S1 & S2).
  assert (Hg : (ROUND2 (x - y) == inject_Z (round_half_away ((x - y) * 100)) * (1 # 100))%Q).
  { unfold ROUND2. rewrite Qred_correct. apply hundredths. }
  split; [|split].
  - intros g H. inversion H; subst g. exists x, y.
    split; [reflexivity|]. split; [reflexivity|]. rewrite Hg. split; [|split].
    + apply Qabs_Qle_condition.
      revert C1 C2. generalize (inject_Z (round_half_away ((x - y) * 100))).
      intros z C1 C2. split; lra.
    + intros Hle. assert (Hz : 0 <= round_half_away ((x - y) * 100)) by (apply S1; lra).
      rewrite Zle_Qle in Hz. change (inject_Z 0) with 0%Q in Hz.
      revert Hz. generalize (inject_Z (round_half_away ((x - y) * 100))).
      intros z Hz. lra.
    + intros Hle. assert (Hz : round_half_away ((x - y) * 100) <= 0) by (apply S2; lra).
      rewrite Zle_Qle in Hz. change (inject_Z 0) with 0%Q in Hz.
      revert Hz. generalize (inject_Z (round_half_away ((x - y) * 100))).
      intros z Hz. lra.
  - destruct (Qle_bool (Qabs (x - y)) 5) eqn:E.
    + apply Qle_bool_iff in E. split; [intros _; exists x, y; auto | reflexivity].
    + split; [intros H; discriminate H|].
      intros (x' & y' & Hx & Hy & Hle). inversion Hx; inversion Hy; subst.
      apply Qle_bool_iff in Hle. congruence.
  - destruct (Qle_bool (Qabs (x - y)) 5) eqn:E; [|intros H; discriminate H].
    intros _. apply Qle_bool_iff in E. apply Qabs_Qle_condition in E.
    destruct E as (E1 & E2). eexists. split; [reflexivity|]. rewrite Hg.
    assert (Z1 : round_half_away ((x - y) * 100) <= 500).
    { assert (H : (inject_Z (round_half_away ((x - y) * 100)) <= 1001 # 2)%Q).
      { revert C1 C2. generalize (inject_Z (round_half_away ((x - y) * 100))).
        intros z C1 C2. lra. }
      unfold Qle in H. simpl in H. lia. }
    assert (Z2 : -500 <= round_half_away ((x - y) * 100)).
    { assert (H : (- (1001 # 2) <= inject_Z (round_half_away ((x - y) * 100)))%Q).
      { revert C1 C2. generalize (inject_Z (round_half_away ((x - y) * 100))).
        intros z C1 C2. lra. }
      unfold Qle in H. simpl in H. lia. }
    rewrite Zle_Qle in Z1, Z2.
    change (inject_Z 500) with 500%Q in Z1. change (inject_Z (-500)) with (-500)%Q in Z2.
    apply Qabs_Qle_condition.
    revert Z1 Z2. generalize (inject_Z (round_half_away ((x - y) * 100))).
    intros z Z1 Z2. split; lra.
Qed.

(** *** Worked inputs *)

Import Examples.

Lemma location_gap_is_always_null_witness :
  exists m, hd_error (equity_metrics run_a eighty_seventy_two) = Some m /\
    Mart.urban_rural_gap m = None /\ Mart.is_location_equitable m = 0.
Proof.
  assert (H : exists m, hd_error (equity_metrics run_a eighty_seventy_two) = Some m)
    by (vm_compute; eexists; reflexivity).
  destruct H as (m & Hhd). exists m. split; [exact Hhd|].
  assert (Hin : In m (equity_metrics run_a eighty_seventy_two)).
  { destruct (equity_metrics run_a eighty_seventy_two); simpl in Hhd;
      [discriminate Hhd | inversion Hhd; left; reflexivity]. }
  destruct (location_gap_is_always_null run_a eighty_seventy_two m Hin)
    as (Hgap & Hflag & _).
  split; [exact Hgap | exact Hflag].
Defined.

Lemma gender_figures_are_never_null_witness :
  exists m gp, hd_error (equity_metrics run_a eighty_seventy_two) = Some m /\
    Mart.gender_gap m = Some gp.
Proof.
  assert (H : exists m, hd_error (equity_metrics run_a eighty_seventy_two) = Some m)
    by (vm_compute; eexists; reflexivity).
  destruct H as (m & Hhd).
  assert (Hin : In m (equity_metrics run_a eighty_seventy_two)).
  { destruct (equity_metrics run_a eighty_seventy_two); simpl in Hhd;
      [discriminate Hhd | inversion Hhd; left; reflexivity]. }
  destruct (gender_figures_are_never_null run_a eighty_seventy_two m Hin)
    as (fa & ma & gp & _ & _ & Hgp).
  exists m, gp. split; [exact Hhd | exact Hgp].
Defined.

Lemma subgroup_counts_fit_the_total_witness :
  exists m t f b, hd_error (equity_metrics run_a eighty_seventy_two) = Some m /\
    Mart.total_students m = Some t /\ Mart.female_count m = Some f /\
    Mart.male_count m = Some b /\ f + b <= t.
Proof.
  assert (H : exists m, hd_error (equity_metrics run_a eighty_seventy_two) = Some m)
    by (vm_compute; eexists; reflexivity).
  destruct H as (m & Hhd).
  assert (Hin : In m (equity_metrics run_a eighty_seventy_two)).
  { destruct (equity_metrics run_a eighty_seventy_two); simpl in Hhd;
      [discriminate Hhd | inversion Hhd; left; reflexivity]. }
  assert (Hpos : forall g, In g eighty_seventy_two -> 0 <= Grouped.student_count g).
  { intros g [<- | [<- | []]]; vm_compute; intros H; discriminate H. }
  destruct (subgroup_counts_fit_the_total run_a eighty_seventy_two m Hpos Hin)
    as (t & f & b & l & w & r & Ht & Hf & Hb & _ & _ & _ & _ & _ & Hle & _).
  exists m, t, f, b.
  split; [exact Hhd | split; [exact Ht | split; [exact Hf | split; [exact Hb | exact Hle]]]].
Defined.

(** Averages of 80 and 72: the gap exists, is not negative and is not
    within 5. *)
Lemma gap_tracks_the_difference_witness :
  exists g, gap (Some 80%Q) (Some 72%Q) = Some g /\ (0 <= g)%Q /\
            equitable (Some 80%Q) (Some 72%Q) <> 1.
Proof.
  destruct (gap_tracks_the_difference (Some 80%Q) (Some 72%Q)) as (Hgap & Hflag & _).
  destruct (gap (Some 80%Q) (Some 72%Q)) as [g|] eqn:E; [|discriminate E].
  exists g. split; [reflexivity|].
  destruct (Hgap g eq_refl) as (x & y & Hx & Hy & _ & Hpos & _).
  inversion Hx; inversion Hy; subst x y. split.
  - apply Hpos. unfold Qle. simpl. lia.
  - intros H. apply Hflag in H. destruct H as (x & y & Hx' & Hy' & Hle).
    inversion Hx'; inversion Hy'; subst x y.
    apply Qle_bool_iff in Hle. vm_compute in Hle. discriminate Hle.
Defined.

End EquityMetricsInvariants.

(* ------------------------------------------------------------------ *)
(** ** The attendance columns *)

Module FctAttendancesFacts.

Import Sql FctAttendances.

(** X19.  An attendance record is counted once at most by the three
    counters, and by none exactly when its status is 'Unknown': that is
    when [is_present] is NULL, or the student is absent and [is_excused]
    is NULL.  Each counter is 1 exactly for its own status. *)
Theorem a_record_is_counted_once_at_most (is_present is_excused : option bool) :
  let counted := present_count is_present
                 + excused_absence_count is_present is_excused
                 + unexcused_absence_count is_present is_excused in
  (counted = 0 \/ counted = 1) /\
  (counted = 0 <-> attendance_status is_present is_excused = "Unknown"%string) /\
  (counted = 0 <->
   is_present = None \/ (is_present = Some false /\ is_excused = None)) /\
  (present_count is_present = 1 <->
   attendance_status is_present is_excused = "Present"%string) /\
  (excused_absence_count is_present is_excused = 1 <->
   attendance_status is_present is_excused = "Absent (Excused)"%string) /\
  (unexcused_absence_count is_present is_excused = 1 <->
   attendance_status is_present is_excused = "Absent (Unexcused)"%string).
Proof.
  destruct is_present as [[|]|], is_excused as [[|]|]; vm_compute;
    repeat split;
    try (intros H; try discriminate H; try reflexivity;
         try (left; reflexivity); try (right; split; reflexivity);
         try (destruct H as [H | (H & H')]; discriminate));
    try (left; reflexivity); try (right; reflexivity).
Qed.

Lemma filter_length_all {A} (p : A -> bool) (l : list A) :
  (List.length (filter p l) <= List.length l)%nat /\
  (List.length (filter p l) = List.length l <-> forall x, In x l -> p x = true).
Proof.
  induction l as [|a tl (IH1 & IH2)]; simpl.
  - split; [lia | split; [intros _ x [] | reflexivity]].
  - destruct (p a) eqn:E; simpl.
    + split; [lia|]. split.
      * intros H x [<- | Hx]; [exact E | apply IH2; [lia | exact Hx]].
      * intros H. f_equal. apply IH2. intros x Hx. apply H. right. exact Hx.
    + split; [lia|]. split; [lia|].
      intros H. specialize (H a (or_introl eq_refl)). congruence.
Qed.

Lemma filter_length_none {A} (p : A -> bool) (l : list A) :
  List.length (filter p l) = 0%nat <-> forall x, In x l -> p x = false.
Proof.
  induction l as [|a tl IH]; simpl.
  - split; [intros _ x [] | reflexivity].
  - destruct (p a) eqn:E; simpl.
    + split; [discriminate|]. intros H.
      specialize (H a (or_introl eq_refl)). congruence.
    + rewrite IH. split.
      * intros H x [<- | Hx]; [exact E | apply H; exact Hx].
      * intros H x Hx. apply H. right. exact Hx.
Qed.

(** X20.  The attendance rate of a group is a share: it lies between 0 and
    1, it is 1 exactly when every record of the group is present, and 0
    exactly when none is; a record whose [is_present] is NULL counts in
    the denominator and not in the numerator. *)
Theorem attendance_rate_is_a_share (first : option bool) (rest : list (option bool)) :
  (0 <= attendance_rate first rest <= 1)%Q /\
  ((attendance_rate first rest == 1)%Q <->
   forall c, In c (first :: rest) -> c = Some true) /\
  ((attendance_rate first rest == 0)%Q <->
   forall c, In c (first :: rest) -> c <> Some true).
Proof.
  unfold attendance_rate, COUNTIF.
  destruct (filter_length_all is_true (first :: rest)) as (Hle & Hall).
  pose proof (filter_length_none is_true (first :: rest)) as Hnone.
  assert (Hlen : Z.pos (Pos.of_succ_nat (List.length rest))
                 = Z.of_nat (List.length (first :: rest))).
  { simpl List.length. lia. }
  assert (Htrue : forall c, is_true c = true <-> c = Some true).
  { intros [[|]|]; simpl; split; intros H; congruence. }
  assert (Hfalse : forall c, is_true c = false <-> c <> Some true).
  { intros [[|]|]; simpl; split; intros H; congruence. }
  unfold Qle, Qeq. cbn [Qnum Qden]. rewrite Hlen.
  split; [lia|]. split.
  - split.
    + intros H c Hc. apply Htrue. apply Hall; [lia | exact Hc].
    + intros H. assert (E : List.length (filter is_true (first :: rest))
                            = List.length (first :: rest)).
      { apply Hall. intros c Hc. apply Htrue. apply H. exact Hc. }
      rewrite E. lia.
  - split.
    + intros H c Hc. apply Hfalse. apply Hnone; [lia | exact Hc].
    + intros H. assert (E : List.length (filter is_true (first :: rest)) = 0%nat).
      { apply Hnone. intros c Hc. apply Hfalse. apply H. exact Hc. }
      rewrite E. lia.
Qed.

End FctAttendancesFacts.
